(** * libgroup: the client side of the group-membership line protocol

    A shallow embedding of [group/lib/libgroup.c].  The C functions become
    state-passing functions over a [world] that holds the heap blocks of
    [struct group_handle], the callback sets owned by the application, the
    table of open descriptors, [errno] and the trace of system calls and
    handler invocations.  What the kernel and the allocator answer is given
    to each function as an oracle argument.  Executions that leave the
    defined behaviour of C end in [Undef]. *)

From Stdlib Require Import ZArith Ascii String DecimalString.
From Stdlib Require DecimalZ.
From stdpp Require Import gmap list strings.

Local Open Scope Z_scope.

(** ** Bytes and C strings *)

Definition NUL : ascii := Ascii.zero.

(** A string literal of the source, as its bytes without the terminator. *)
Definition lit (s : string) : list ascii := list_ascii_of_string s.

Definition is_nul (c : ascii) : bool := Ascii.eqb c NUL.

(** The bytes a [char *] denotes: everything before the first NUL. *)
Fixpoint c_str (l : list ascii) : list ascii :=
  match l with
  | [] => []
  | c :: r => if is_nul c then [] else c :: c_str r
  end.

Definition nul_free (l : list ascii) : Prop := existsb is_nul l = false.

(** [strlen] over an array: defined only when the array holds a NUL. *)
Definition strlen (buf : list ascii) : option nat :=
  if existsb is_nul buf then Some (length (c_str buf)) else None.

(** [memset(buf, 0, n)] *)
Definition memset0 (n : nat) : list ascii := replicate n NUL.

(** [strncpy(dst, src, n)]: at most [n] bytes of [src], padded with NUL;
    no terminator when [src] has [n] bytes or more. *)
Definition strncpy (n : nat) (src : list ascii) : list ascii :=
  take n (c_str src) ++ replicate (n - length (c_str src)) NUL.

(** [%d] of [printf]. *)
Definition fmt_d (z : Z) : list ascii :=
  lit (NilZero.string_of_int (Z.to_int z)).

(** ** Constants of the source *)

Definition LIBGROUP_MAGIC : Z := 0x67727570.
Definition MAXARGS : nat := 100.
Definition MAXLINE : nat := 256.

Definition EBADF : Z := 9.
Definition ENOMEM : Z := 12.
Definition EINVAL : Z := 22.

(** ** The data model *)

(** Modelled from the spec: [group_callbacks_t] is declared in libgroup.h,
    outside libgroup.c.  It is the set of handlers,
    one per event kind; the five members are the ones [group_dispatch]
    calls.  A handler is the address of a function, 0 for a null pointer. *)
Record group_callbacks_t : Type := {
  stop : Z;
  start : Z;
  finish : Z;
  terminate : Z;
  set_id : Z
}.

Record group_handle : Type := {
  magic : Z;
  fd : Z;
  level : Z;
  private : Z;
  cbs : group_callbacks_t;
  prog_name : list ascii
}.

(** A heap block that holds a [struct group_handle].  [free] clears
    [live]: the block stays in the map as one that was allocated and
    given back, and whatever [obj] still records of it is not to be read
    any more; a read through a pointer to it is a use after free. *)
Record block : Type := {
  live : bool;
  obj : group_handle
}.

(** The program name and the callback set kept in a block. *)
Definition stored_name (b : block) : list ascii := prog_name (obj b).
Definition stored_cbs (b : block) : group_callbacks_t := cbs (obj b).

Inductive event : Type :=
| Sys_socket (res : Z)
| Sys_connect (d res : Z)
| Sys_write (d : Z) (data : list ascii) (res : Z)
| Sys_read (d res : Z)
| Sys_close (d : Z)
| Call_stop (fn h priv : Z) (name : list ascii)
| Call_stop_unset (fn h priv : Z)      (* the name passed is an unset [argv[1]] *)
| Call_start (fn h priv : Z) (name : list ascii)
    (event_type event_nr count : Z) (nodeids : list Z)
| Call_finish (fn h priv : Z) (name : list ascii) (event_nr : Z)
| Call_terminate (fn h priv : Z) (name : list ascii)
| Call_terminate_unset (fn h priv : Z) (* the name passed is an unset [argv[1]] *)
| Call_set_id (fn h priv : Z) (name : list ascii) (id : Z).

Record world : Type := {
  heap : gmap Z block;
  app_cbs : gmap Z group_callbacks_t;
  open_fds : gset Z;
  errno : Z;
  trace : list event
}.

(** Ways an execution leaves defined behaviour. *)
Inductive ub : Type :=
| Wild_handle        (* the handle points at no block ever allocated *)
| Use_after_free     (* a block is read after [free] has given it back *)
| Wild_callbacks     (* [*cbs] read through a pointer to no callback set *)
| Store_to_literal   (* [sprintf] whose destination is a string literal *)
| Buffer_overflow    (* [sprintf] past the end of [buf] *)
| Unterminated_line  (* [buf] full, no NUL for the tokenizer to stop at *)
| Argv_uninit        (* an unset [argv[i]], [i >= argc], is dereferenced *)
| Null_deref         (* store through the null result of [malloc] *)
| Null_handler.      (* call through a null function pointer *)

Inductive outcome (A : Type) : Type :=
| Undef (u : ub)
| Done (a : A) (w : world).
Arguments Undef {A} u.
Arguments Done {A} a w.

Definition M (A : Type) : Type := world -> outcome A.

Definition ret {A} (a : A) : M A := fun w => Done a w.

Definition bind {A B} (m : M A) (k : A -> M B) : M B :=
  fun w => match m w with
           | Undef u => Undef u
           | Done a w' => k a w'
           end.

Definition undefined {A} (u : ub) : M A := fun _ => Undef u.

Declare Scope cmd_scope.
Delimit Scope cmd_scope with cmd.
Notation "x <- m ;; k" := (bind m (fun x => k))
  (at level 100, m at next level, right associativity) : cmd_scope.
Notation "m ;;; k" := (bind m (fun _ => k))
  (at level 100, right associativity) : cmd_scope.

(** ** State updates *)

Definition set_errno (e : Z) (w : world) : world :=
  {| heap := heap w; app_cbs := app_cbs w; open_fds := open_fds w;
     errno := e; trace := trace w |}.

Definition set_heap (m : gmap Z block) (w : world) : world :=
  {| heap := m; app_cbs := app_cbs w; open_fds := open_fds w;
     errno := errno w; trace := trace w |}.

Definition set_open_fds (s : gset Z) (w : world) : world :=
  {| heap := heap w; app_cbs := app_cbs w; open_fds := s;
     errno := errno w; trace := trace w |}.

Definition set_app_cbs (m : gmap Z group_callbacks_t) (w : world) : world :=
  {| heap := heap w; app_cbs := m; open_fds := open_fds w;
     errno := errno w; trace := trace w |}.

Definition emit (e : event) (w : world) : world :=
  {| heap := heap w; app_cbs := app_cbs w; open_fds := open_fds w;
     errno := errno w; trace := trace w ++ [e] |}.

(** ** The heap *)

(** [*p] for a [struct group_handle *]. *)
Definition load (p : Z) : M group_handle :=
  fun w => match heap w !! p with
           | Some b => if live b then Done (obj b) w else Undef Use_after_free
           | None => Undef Wild_handle
           end.

(** The stores that fill a block obtained from [malloc]. *)
Definition store (p : Z) (v : group_handle) : M unit :=
  fun w => Done tt (set_heap (<[p := {| live := true; obj := v |}]> (heap w)) w).

(** [malloc(sizeof(struct group_handle))]: the allocator answers with an
    address, 0 when it has no memory. *)
Definition malloc (answer : Z) : M Z :=
  fun w => if answer =? 0 then Done 0 (set_errno ENOMEM w) else Done answer w.

(** [free(p)]: the block is given back. *)
Definition free (p : Z) : M unit :=
  fun w => Done tt
    (set_heap (alter (fun b => {| live := false; obj := obj b |}) p (heap w)) w).

(** [*cbs] for the caller's [group_callbacks_t *]. *)
Definition load_cbs (p : Z) : M group_callbacks_t :=
  fun w => match app_cbs w !! p with
           | Some c => Done c w
           | None => Undef Wild_callbacks
           end.

(** ** System calls *)

(** What the kernel answers: a result, or a failure with its [errno]. *)
Inductive sysres : Type :=
| Sys_ok (v : Z)
| Sys_fail (e : Z).

Inductive readres : Type :=
| Read_ok (data : list ascii)
| Read_fail (e : Z).

Definition sys_socket (o : sysres) : M Z :=
  fun w => match o with
           | Sys_ok d =>
               Done d (emit (Sys_socket d) (set_open_fds ({[d]} ∪ open_fds w) w))
           | Sys_fail e => Done (-1) (emit (Sys_socket (-1)) (set_errno e w))
           end.

Definition sys_connect (d : Z) (o : sysres) : M Z :=
  fun w => match o with
           | Sys_ok v => Done v (emit (Sys_connect d v) w)
           | Sys_fail e => Done (-1) (emit (Sys_connect d (-1)) (set_errno e w))
           end.

(** [write(d, data, length data)] *)
Definition sys_write (d : Z) (data : list ascii) (o : sysres) : M Z :=
  fun w => match o with
           | Sys_ok v => Done v (emit (Sys_write d data v) w)
           | Sys_fail e => Done (-1) (emit (Sys_write d data (-1)) (set_errno e w))
           end.

(** [read(d, buf, sizeof(buf))]: at most [length buf] bytes arrive at the
    front of [buf]; a failed read leaves [buf] alone. *)
Definition sys_read (d : Z) (buf : list ascii) (o : readres)
  : M (Z * list ascii) :=
  fun w => match o with
           | Read_ok data =>
               let got := take (length buf) data in
               let rv := Z.of_nat (length got) in
               Done (rv, got ++ drop (length got) buf) (emit (Sys_read d rv) w)
           | Read_fail e =>
               Done (-1, buf) (emit (Sys_read d (-1)) (set_errno e w))
           end.

Definition sys_close (d : Z) : M Z :=
  fun w => if decide (d ∈ open_fds w)
           then Done 0 (emit (Sys_close d) (set_open_fds (open_fds w ∖ {[d]}) w))
           else Done (-1) (emit (Sys_close d) (set_errno EBADF w)).

(** ** Formatting *)

(** [sprintf(buf, ...)] where the expansion of the format is [s]: [s] and
    its terminator land at the front of [buf]. *)
Definition sprintf (buf s : list ascii) : M (list ascii) :=
  if (length s <? length buf)%nat
  then ret (s ++ NUL :: drop (S (length s)) buf)
  else undefined Buffer_overflow.

(** [sprintf(dst, fmt)] where [dst] is a string literal of the program:
    the store goes to the literal, which C does not allow to be modified;
    no array of the caller is written. *)
Definition sprintf_literal (dst fmt : list ascii) : M unit :=
  undefined Store_to_literal.

(** [strlen(buf)] in the monad. *)
Definition strlen_of (buf : list ascii) : M nat :=
  match strlen buf with
  | Some n => ret n
  | None => undefined Unterminated_line
  end.

(** ** Handle validation *)

Inductive validated : Type :=
| Rejected (w : world)
| Accepted (h : group_handle)
| Stray
| Released.

(** The macro [VALIDATE_HANDLE]: [Rejected] is its [return -1] with
    [errno = EINVAL].  The test [(h)->magic != LIBGROUP_MAGIC] reads the
    block: [Stray] when the handle points at no block, [Released] when
    the block has been freed. *)
Definition VALIDATE_HANDLE (handle : Z) (w : world) : validated :=
  if handle =? 0 then Rejected (set_errno EINVAL w)
  else match heap w !! handle with
       | None => Stray
       | Some b =>
           if live b then
             if magic (obj b) =? LIBGROUP_MAGIC then Accepted (obj b)
             else Rejected (set_errno EINVAL w)
           else Released
       end.

Definition with_handle (handle : Z) (k : group_handle -> M Z) : M Z :=
  fun w => match VALIDATE_HANDLE handle w with
           | Rejected w' => Done (-1) w'
           | Stray => Undef Wild_handle
           | Released => Undef Use_after_free
           | Accepted h => k h w
           end.

Local Open Scope cmd_scope.

(** ** The command encoder *)

(** [group_join], [group_leave] and [group_done]: in each the first
    argument of [sprintf] is the format literal and the second is [name];
    [buf] is what [write] is given. *)
Definition group_join (o : sysres) (handle : Z) (name info : list ascii) : M Z :=
  with_handle handle (fun h =>
    let buf := memset0 MAXLINE in
    sprintf_literal (lit "join %s") name ;;;
    n <- strlen_of buf ;;
    rv <- sys_write (fd h) (take n buf) o ;;
    ret rv).

Definition group_leave (o : sysres) (handle : Z) (name info : list ascii) : M Z :=
  with_handle handle (fun h =>
    let buf := memset0 MAXLINE in
    sprintf_literal (lit "leave %s") name ;;;
    n <- strlen_of buf ;;
    rv <- sys_write (fd h) (take n buf) o ;;
    ret rv).

Definition group_done (o : sysres) (handle : Z) (name : list ascii)
    (event_nr : Z) : M Z :=
  with_handle handle (fun h =>
    let buf := memset0 MAXLINE in
    sprintf_literal (lit "done %s %d") name ;;;
    n <- strlen_of buf ;;
    rv <- sys_write (fd h) (take n buf) o ;;
    ret rv).

(** ** The session *)

(** What the allocator and the kernel answer during [group_init]. *)
Record init_oracle : Type := {
  o_malloc : Z;
  o_socket : sysres;
  o_connect : sysres;
  o_write : sysres
}.

(** The label [fail] of [group_init]. *)
Definition init_fail (h : Z) : M Z :=
  fun w =>
    let saved_errno := errno w in
    (b <- load h ;;
     sys_close (fd b) ;;;
     free h ;;;
     (fun w' => Done 0 (set_errno saved_errno w'))) w.

(** [group_init].  The fields of the new block are written in one store,
    once [socket] has given [h->fd]; [*cbs] is read before [socket] is
    called, as in the source. *)
Definition group_init (o : init_oracle) (private : Z) (prog_name : list ascii)
    (level : Z) (cbs : Z) : M Z :=
  h <- malloc (o_malloc o) ;;
  if h =? 0 then ret 0 else
  c <- load_cbs cbs ;;
  d <- sys_socket (o_socket o) ;;
  store h {| magic := LIBGROUP_MAGIC; fd := d; level := level;
             private := private; cbs := c;
             prog_name := strncpy 32 prog_name |} ;;;
  if d <? 0 then init_fail h else
  rv <- sys_connect d (o_connect o) ;;
  if rv <? 0 then init_fail h else
  buf <- sprintf (memset0 MAXLINE)
           (lit "setup " ++ c_str prog_name ++ lit " " ++ fmt_d level) ;;
  n <- strlen_of buf ;;
  rv <- sys_write d (take n buf) (o_write o) ;;
  if rv <? 0 then init_fail h else
  ret h.

Definition clear_magic (h : group_handle) : group_handle :=
  {| magic := 0; fd := fd h; level := level h; private := private h;
     cbs := cbs h; prog_name := prog_name h |}.

(** [h->magic = 0] *)
Definition store_magic0 (p : Z) : M unit :=
  fun w => Done tt
    (set_heap (alter (fun b => {| live := live b; obj := clear_magic (obj b) |})
                 p (heap w)) w).

Definition group_exit (handle : Z) : M Z :=
  with_handle handle (fun h =>
    store_magic0 handle ;;;
    sys_close (fd h) ;;;
    free handle ;;;
    ret 0).

Definition group_get_fd (handle : Z) : M Z :=
  with_handle handle (fun h => ret (fd h)).

(** ** The event decoder and dispatcher *)

Definition isspace (c : ascii) : bool :=
  let n := nat_of_ascii c in
  ((n =? 32) || ((9 <=? n) && (n <=? 13)))%nat.

Definition digit_of (c : ascii) : option Z :=
  let n := nat_of_ascii c in
  if ((48 <=? n) && (n <=? 57))%nat then Some (Z.of_nat n - 48) else None.

Fixpoint atoi_digits (acc : Z) (l : list ascii) : Z :=
  match l with
  | [] => acc
  | c :: r => match digit_of c with
              | Some v => atoi_digits (10 * acc + v) r
              | None => acc
              end
  end.

Fixpoint dropwhile_space (l : list ascii) : list ascii :=
  match l with
  | c :: r => if isspace c then dropwhile_space r else l
  | [] => []
  end.

(** A value as an [int]: 32 bits, two's complement. *)
Definition to_int32 (z : Z) : Z := (z + 2 ^ 31) mod 2 ^ 32 - 2 ^ 31.

(** [atoi] of the C library: blanks, an optional sign, then digits up to
    the first byte that is none; 0 when there is no digit.  C defines the
    result only when the number is a value of [int], and there the model
    is exact.  For any other token the value below (the low 32 bits)
    stands for nothing the program is known to compute: every statement
    about a converted value is made for tokens within [int]. *)
Definition atoi (s : list ascii) : Z :=
  match dropwhile_space s with
  | c :: r =>
      if Ascii.eqb c "-" then to_int32 (- atoi_digits 0 r)
      else if Ascii.eqb c "+" then to_int32 (atoi_digits 0 r)
      else to_int32 (atoi_digits 0 (c :: r))
  | [] => 0
  end.

(** What the kernel and the allocator answer during [group_dispatch]. *)
Record dispatch_oracle : Type := {
  o_read : readres;
  o_nodeids : bool  (* does [malloc] for the node ids give a block? *)
}.

(** [argv[i]] where the string it points at is read: the tokenizer fills
    only the first [argc] slots of [argv]. *)
Definition arg (argv : list (list ascii)) (i : nat) : M (list ascii) :=
  match argv !! i with
  | Some a => ret a
  | None => undefined Argv_uninit
  end.

(** A call through a member of [h->cbs].  The model records that the
    call is made and with which arguments; what the handler then does is
    code of the application and is not part of the model. *)
Definition call (fn : Z) (e : event) : M unit :=
  if fn =? 0 then undefined Null_handler
  else fun w => Done tt (emit e w).

(** [count = argc - 4] *)
Definition start_count (argc : Z) : Z := argc - 4.

(** [nodeids = malloc(count * sizeof(int))] and the loop that fills it from
    [argv[4]] on; the result of [malloc] is not tested. *)
Definition fill_nodeids (alloc_ok : bool) (argv : list (list ascii))
  : M (list Z) :=
  match drop 4 argv with
  | [] => ret []
  | rest => if alloc_ok then ret (atoi <$> rest) else undefined Null_deref
  end.

(** The comparison chain on [act = argv[0]] and the call it selects.  The
    stop and terminate branches hand [argv[1]] to the handler without
    reading the string: when the slot is unset the call is made all the
    same, with a pointer that was never set.  The other branches give
    their last token to [atoi], which reads the string. *)
Definition dispatch_action (alloc_ok : bool) (handle : Z) (h : group_handle)
    (argv : list (list ascii)) : M unit :=
  let argc := Z.of_nat (length argv) in
  act <- arg argv 0 ;;
  if decide (act = lit "stop") then
    match argv !! 1%nat with
    | Some a1 =>
        call (stop (cbs h)) (Call_stop (stop (cbs h)) handle (private h) a1)
    | None =>
        call (stop (cbs h)) (Call_stop_unset (stop (cbs h)) handle (private h))
    end
  else if decide (act = lit "start") then
    let count := start_count argc in
    nodeids <- fill_nodeids alloc_ok argv ;;
    a1 <- arg argv 1 ;;
    a2 <- arg argv 2 ;;
    a3 <- arg argv 3 ;;
    call (start (cbs h))
      (Call_start (start (cbs h)) handle (private h) a1
         (atoi a2) (atoi a3) count nodeids)
  else if decide (act = lit "finish") then
    a1 <- arg argv 1 ;;
    a2 <- arg argv 2 ;;
    call (finish (cbs h))
      (Call_finish (finish (cbs h)) handle (private h) a1 (atoi a2))
  else if decide (act = lit "terminate") then
    match argv !! 1%nat with
    | Some a1 =>
        call (terminate (cbs h))
          (Call_terminate (terminate (cbs h)) handle (private h) a1)
    | None =>
        call (terminate (cbs h))
          (Call_terminate_unset (terminate (cbs h)) handle (private h))
    end
  else if decide (act = lit "set_id") then
    a1 <- arg argv 1 ;;
    a2 <- arg argv 2 ;;
    call (set_id (cbs h))
      (Call_set_id (set_id (cbs h)) handle (private h) a1 (atoi a2))
  else ret tt.

Section Dispatch.

(** [make_args(buf, &argc, argv, sep)] is called by [group_dispatch] and
    defined elsewhere: applied to the line held in [buf] and to the
    separator, it gives the filled part of [argv], [argc] entries long. *)
Variable tokenizer : list ascii -> ascii -> list (list ascii).

Definition group_dispatch_with (o : dispatch_oracle) (handle : Z) : M Z :=
  with_handle handle (fun h =>
    let buf := memset0 MAXLINE in
    r <- sys_read (fd h) buf (o_read o) ;;
    let buf := snd r in
    strlen_of buf ;;;
    let argv := tokenizer (c_str buf) " "%char in
    dispatch_action (o_nodeids o) handle h argv ;;;
    ret 0).

End Dispatch.

(** The pieces of [l] between the occurrences of [sep]. *)
Fixpoint split_on (sep : ascii) (l : list ascii) : list (list ascii) :=
  match l with
  | [] => [[]]
  | c :: r =>
      if Ascii.eqb c sep then [] :: split_on sep r
      else match split_on sep r with
           | t :: ts => (c :: t) :: ts
           | [] => [[c]]
           end
  end.

(** Modelled from the spec: [make_args] is called by [group_dispatch] and
    defined outside libgroup.c.  It splits the line into the tokens
    delimited by the separator, up to a bounded maximum token count; what
    lies beyond that bound is ignored.  The separator is the one the call
    passes; the line is cut at each of its occurrences, which gives the
    empty line one empty token.  Only the statements that name
    [make_args] or [group_dispatch] depend on this reading: those on
    [group_dispatch_with] hold for every tokenizer. *)
Definition make_args (line : list ascii) (sep : ascii) : list (list ascii) :=
  take MAXARGS (split_on sep line).

Definition group_dispatch : dispatch_oracle -> Z -> M Z :=
  group_dispatch_with make_args.

(** ** Concrete worlds for the examples *)

Definition cbs_a : group_callbacks_t :=
  {| stop := 11; start := 12; finish := 13; terminate := 14; set_id := 15 |}.

Definition cbs_b : group_callbacks_t :=
  {| stop := 21; start := 22; finish := 23; terminate := 24; set_id := 25 |}.

Definition handle_a : group_handle :=
  {| magic := LIBGROUP_MAGIC; fd := 3; level := 1; private := 77;
     cbs := cbs_a; prog_name := strncpy 32 (lit "fenced") |}.

(** One live session at address 4096, on descriptor 3. *)
Definition world_a : world :=
  {| heap := {[ 4096 := {| live := true; obj := handle_a |} ]};
     app_cbs := {[ 512 := cbs_a ]};
     open_fds := {[ 3 ]};
     errno := 0;
     trace := [] |}.

(** The application before any session: it owns one callback set. *)
Definition world_0 : world :=
  {| heap := ∅; app_cbs := {[ 512 := cbs_a ]}; open_fds := ∅;
     errno := 0; trace := [] |}.

(** A kernel and an allocator that grant everything [group_init] asks
    for; [n] is what [write] returns. *)
Definition oracle_up (n : Z) : init_oracle :=
  {| o_malloc := 4096; o_socket := Sys_ok 3; o_connect := Sys_ok 0;
     o_write := Sys_ok n |}.

(** A program name of 40 bytes. *)
Definition long_name : list ascii :=
  lit "0123456789abcdefghijklmnopqrstuvwxyzABCD".

(** [world_a] with, at address 8192, a live object that is no session:
    its magic field is not the magic number. *)
Definition world_b : world :=
  set_heap (<[ 8192 := {| live := true; obj := clear_magic handle_a |} ]>
              (heap world_a)) world_a.

Definition world_of {A} (r : outcome A) (otherwise : world) : world :=
  match r with
  | Done _ w => w
  | Undef _ => otherwise
  end.

(** [world_0] after a session was opened with the set at 512. *)
Definition world_1 : world :=
  world_of (group_init (oracle_up 14) 77 (lit "fenced") 1 512 world_0) world_0.

(** [world_1] after the application has stored [cbs_b] in its set. *)
Definition world_2 : world :=
  set_app_cbs (<[512 := cbs_b]> (app_cbs world_1)) world_1.

(** [world_2] after a "stop g1" line was dispatched. *)
Definition world_3 : world :=
  world_of (group_dispatch
              {| o_read := Read_ok (lit "stop g1"); o_nodeids := true |}
              4096 world_2) world_2.

(** An execution that, if it returns at all, returns 0. *)
Definition returns_0 (r : outcome Z) : Prop :=
  match r with
  | Done rv _ => rv = 0
  | Undef _ => True
  end.

Definition traced {A} (r : outcome A) : option (A * list event) :=
  match r with
  | Done a w => Some (a, trace w)
  | Undef _ => None
  end.

(** ** Handles: valid, and rejected *)

(** A valid session handle: a live block that carries the magic number. *)
Definition valid_handle (w : world) (handle : Z) (h : group_handle) : Prop :=
  handle ≠ 0 ∧ heap w !! handle = Some {| live := true; obj := h |}
  ∧ magic h = LIBGROUP_MAGIC.

(** A handle the validation turns down: null, or a live block whose magic
    field is not the magic number. *)
Definition invalid_handle (w : world) (handle : Z) : Prop :=
  handle = 0
  ∨ ∃ b, heap w !! handle = Some b ∧ live b = true
         ∧ magic (obj b) ≠ LIBGROUP_MAGIC.

(** The five actions [group_dispatch] knows. *)
Definition recognized : list (list ascii) :=
  [lit "stop"; lit "start"; lit "finish"; lit "terminate"; lit "set_id"].

(** ** The public operations that take a handle *)

Inductive op : Type :=
| Op_join (o : sysres) (name info : list ascii)
| Op_leave (o : sysres) (name info : list ascii)
| Op_done (o : sysres) (name : list ascii) (event_nr : Z)
| Op_get_fd
| Op_dispatch (o : dispatch_oracle)
| Op_exit.

Definition run_op (tokenizer : list ascii -> ascii -> list (list ascii))
    (handle : Z) (c : op) : M Z :=
  match c with
  | Op_join o name info => group_join o handle name info
  | Op_leave o name info => group_leave o handle name info
  | Op_done o name event_nr => group_done o handle name event_nr
  | Op_get_fd => group_get_fd handle
  | Op_dispatch o => group_dispatch_with tokenizer o handle
  | Op_exit => group_exit handle
  end.

(** The operations of [cs] one after the other on the same handle, with
    the value each one returns. *)
Fixpoint run_ops (tokenizer : list ascii -> ascii -> list (list ascii))
    (handle : Z) (cs : list op) : M (list Z) :=
  match cs with
  | [] => ret []
  | c :: cs' =>
      rv <- run_op tokenizer handle c ;;
      rvs <- run_ops tokenizer handle cs' ;;
      ret (rv :: rvs)
  end.

(** The handler of a call event is the member of [c] for its event kind. *)
Definition from_set (c : group_callbacks_t) (e : event) : Prop :=
  match e with
  | Call_stop fn _ _ _ => fn = stop c
  | Call_stop_unset fn _ _ => fn = stop c
  | Call_start fn _ _ _ _ _ _ _ => fn = start c
  | Call_finish fn _ _ _ _ => fn = finish c
  | Call_terminate fn _ _ _ => fn = terminate c
  | Call_terminate_unset fn _ _ => fn = terminate c
  | Call_set_id fn _ _ _ _ => fn = set_id c
  | _ => True
  end.

(** ** Sessions as [group_init] leaves them *)

(** The contents [group_init] gives to the block of a new session. *)
Definition session (private : Z) (prog_name : list ascii) (level : Z)
    (c : group_callbacks_t) (d : Z) : group_handle :=
  {| magic := LIBGROUP_MAGIC; fd := d; level := level; private := private;
     cbs := c; prog_name := strncpy 32 prog_name |}.

(** The handshake line [group_init] formats into [buf]. *)
Definition setup_line (prog_name : list ascii) (level : Z) : list ascii :=
  lit "setup " ++ c_str prog_name ++ lit " " ++ fmt_d level.

(** The world after [socket] gave [d] and the block at [p] was filled. *)
Definition with_session (p : Z) (h : group_handle) (d : Z) (w : world) : world :=
  set_heap (<[p := {| live := true; obj := h |}]> (heap w))
    (emit (Sys_socket d) (set_open_fds ({[d]} ∪ open_fds w) w)).

(** ** What an action asks of the line *)

(** The member of the callback set that the comparison chain of
    [group_dispatch] selects for a first token. *)
Definition handler_for (c : group_callbacks_t) (act : list ascii) : option Z :=
  if decide (act = lit "stop") then Some (stop c)
  else if decide (act = lit "start") then Some (start c)
  else if decide (act = lit "finish") then Some (finish c)
  else if decide (act = lit "terminate") then Some (terminate c)
  else if decide (act = lit "set_id") then Some (set_id c)
  else None.

(** One more than the highest index of [argv] that the branch of the
    action reads before it makes its call. *)
Definition needed_args (act : list ascii) : nat :=
  if decide (act = lit "stop") then 2
  else if decide (act = lit "start") then 4
  else if decide (act = lit "finish") then 3
  else if decide (act = lit "terminate") then 2
  else if decide (act = lit "set_id") then 3
  else 1.

(** The handler calls among the events of a trace. *)
Definition is_call (e : event) : bool :=
  match e with
  | Sys_socket _ | Sys_connect _ _ | Sys_write _ _ _ | Sys_read _ _
  | Sys_close _ => false
  | _ => true
  end.

(** The values of the type [int]. *)
Definition is_int (z : Z) : Prop := - 2 ^ 31 ≤ z < 2 ^ 31.

(** The number a token starts with, as [atoi] reads it (blanks, an
    optional sign, digits), before any conversion to [int]. *)
Definition decimal_value (s : list ascii) : Z :=
  match dropwhile_space s with
  | c :: r =>
      if Ascii.eqb c "-" then - atoi_digits 0 r
      else if Ascii.eqb c "+" then atoi_digits 0 r
      else atoi_digits 0 (c :: r)
  | [] => 0
  end.

(** The tokens on which C defines [atoi]: the number is a value of [int]. *)
Definition fits_int (s : list ascii) : Prop := is_int (decimal_value s).

(** The actions whose branch gives a token to [atoi]. *)
Definition converting : list (list ascii) :=
  [lit "start"; lit "finish"; lit "set_id"].

(** * Properties *)

(** ** Sanity runs of the model *)

Example atoi_12 : atoi (lit "12") = 12. Proof. reflexivity. Qed.
Example atoi_neg : atoi (lit "  -40x") = -40. Proof. reflexivity. Qed.
Example atoi_word : atoi (lit "g1") = 0. Proof. reflexivity. Qed.

Example dispatch_start :
  traced (group_dispatch
            {| o_read := Read_ok (lit "start g1 1 5 10 11 12"); o_nodeids := true |}
            4096 world_a)
  = Some (0, [Sys_read 3 21;
              Call_start 12 4096 77 (lit "g1") 1 5 3 [10; 11; 12]]).
Proof. vm_compute. reflexivity. Qed.

(** ** Handle validation *)

Lemma VALIDATE_HANDLE_valid w handle h :
  valid_handle w handle h → VALIDATE_HANDLE handle w = Accepted h.
Proof.
  intros (Hnz & Hblk & Hmagic). unfold VALIDATE_HANDLE.
  destruct (Z.eqb_spec handle 0) as [?|_]; [done|].
  rewrite Hblk. cbn. rewrite Hmagic. by rewrite Z.eqb_refl.
Qed.

Lemma VALIDATE_HANDLE_invalid w handle :
  invalid_handle w handle →
  VALIDATE_HANDLE handle w = Rejected (set_errno EINVAL w).
Proof.
  intros [->|(b & Hblk & Hlive & Hmagic)]; unfold VALIDATE_HANDLE; [done|].
  destruct (handle =? 0); [done|]. rewrite Hblk, Hlive.
  by destruct (Z.eqb_spec (magic (obj b)) LIBGROUP_MAGIC).
Qed.

Lemma with_handle_valid w handle h k :
  valid_handle w handle h → with_handle handle k w = k h w.
Proof.
  intros Hv. unfold with_handle. by rewrite (VALIDATE_HANDLE_valid _ _ _ Hv).
Qed.

Lemma with_handle_invalid w handle k :
  invalid_handle w handle →
  with_handle handle k w = Done (-1) (set_errno EINVAL w).
Proof.
  intros Hi. unfold with_handle. by rewrite (VALIDATE_HANDLE_invalid _ _ Hi).
Qed.

Lemma invalid_handle_set_errno e w handle :
  invalid_handle w handle → invalid_handle (set_errno e w) handle.
Proof. done. Qed.

Lemma valid_handle_a : valid_handle world_a 4096 handle_a.
Proof. split; [lia | split; reflexivity]. Qed.

(** ** The command encoder writes nothing *)

Lemma group_join_valid o w handle h name info :
  valid_handle w handle h →
  group_join o handle name info w = Undef Store_to_literal.
Proof. intros Hv. unfold group_join. by rewrite (with_handle_valid _ _ _ _ Hv). Qed.

Lemma group_leave_valid o w handle h name info :
  valid_handle w handle h →
  group_leave o handle name info w = Undef Store_to_literal.
Proof. intros Hv. unfold group_leave. by rewrite (with_handle_valid _ _ _ _ Hv). Qed.

Lemma group_done_valid o w handle h name event_nr :
  valid_handle w handle h →
  group_done o handle name event_nr w = Undef Store_to_literal.
Proof. intros Hv. unfold group_done. by rewrite (with_handle_valid _ _ _ _ Hv). Qed.

(** C1 (the claim: join writes exactly "join " and the group name, and
    acknowledge-done of "g1", 7 writes exactly "done g1 7").  On the live
    session of [world_a], with a kernel ready to take every byte, neither
    [group_join] nor [group_done] reaches [write]: [sprintf] is handed the
    format literal as its destination and the group name as its format, so
    the execution is undefined at that store and [buf], never written,
    still has length 0 as a string. *)
Theorem C1_join_and_done_never_send_their_line :
  group_join (Sys_ok 7) 4096 (lit "g1") [] world_a = Undef Store_to_literal
  ∧ group_done (Sys_ok 9) 4096 (lit "g1") 7 world_a = Undef Store_to_literal
  ∧ strlen (memset0 MAXLINE) = Some 0%nat.
Proof.
  split; [|split].
  - apply (group_join_valid _ _ _ _ _ _ valid_handle_a).
  - apply (group_done_valid _ _ _ _ _ _ valid_handle_a).
  - reflexivity.
Qed.

(** ** What reaches the tokenizer *)

Lemma c_str_app_nul (d : list ascii) (k : nat) :
  c_str (d ++ replicate (S k) NUL) = c_str d.
Proof.
  induction d as [|c d IH]; [done|].
  cbn [c_str app]. destruct (is_nul c); [done|]. by rewrite IH.
Qed.

Lemma existsb_app_nul (d : list ascii) (k : nat) :
  existsb is_nul (d ++ replicate (S k) NUL) = true.
Proof.
  rewrite existsb_app. cbn. apply orb_true_r.
Qed.

Lemma recv_short (data : list ascii) :
  (length data < MAXLINE)%nat →
  take (length (memset0 MAXLINE)) data = data
  ∧ ∃ k, drop (length data) (memset0 MAXLINE) = replicate (S k) NUL.
Proof.
  intros Hlen. unfold memset0. rewrite length_replicate. split.
  - apply take_ge. lia.
  - exists (MAXLINE - length data - 1)%nat. rewrite drop_replicate.
    f_equal. lia.
Qed.

(** A line that fits [buf] together with its terminator is what the
    tokenizer is applied to. *)
Lemma dispatch_read_ok tk o w handle h data :
  valid_handle w handle h →
  o_read o = Read_ok data →
  (length data < MAXLINE)%nat →
  group_dispatch_with tk o handle w
  = (dispatch_action (o_nodeids o) handle h (tk (c_str data) " "%char) ;;;
     ret 0) (emit (Sys_read (fd h) (Z.of_nat (length data))) w).
Proof.
  intros Hv Hr Hlen. unfold group_dispatch_with.
  rewrite (with_handle_valid _ _ _ _ Hv).
  destruct (recv_short data Hlen) as (Htake & k & Hdrop).
  unfold bind at 1. unfold sys_read. rewrite Hr, Htake, Hdrop. cbn [snd].
  unfold bind at 1. unfold strlen_of, strlen.
  rewrite existsb_app_nul. unfold ret at 1.
  by rewrite c_str_app_nul.
Qed.


Lemma dispatch_action_other alloc_ok handle h act rest :
  act ∉ recognized →
  dispatch_action alloc_ok handle h (act :: rest) = ret tt.
Proof.
  intros Hact. unfold dispatch_action. cbn [arg lookup list_lookup].
  unfold recognized in Hact.
  assert (Hne : ∀ s, s ∈ recognized → act ≠ s).
  { intros s Hs ->. by apply Hact. }
  unfold recognized in Hne.
  unfold bind, ret.
  repeat match goal with
         | |- context [decide (act = ?s)] =>
             destruct (decide (act = s)) as [Heq|_];
             [exfalso; apply (Hne s); [set_solver | exact Heq]|]
         end.
  done.
Qed.

(** ** Dispatch *)

Ltac decide_action :=
  repeat match goal with
         | |- context [decide (?a = ?s)] =>
             destruct (decide (a = s)) as [?|?]; try discriminate; try done
         end.

Lemma make_args_empty : make_args [] " "%char = [[]].
Proof. reflexivity. Qed.


(** After the validation the only value [group_dispatch] returns is 0. *)
Lemma group_dispatch_returns_0 tk o w handle h :
  valid_handle w handle h → returns_0 (group_dispatch_with tk o handle w).
Proof.
  intros Hv. unfold group_dispatch_with.
  rewrite (with_handle_valid _ _ _ _ Hv).
  unfold bind, ret, returns_0. repeat case_match; try done. congruence.
Qed.

(** C2 (the claim: when the read of dispatch returns zero bytes or fails,
    dispatch returns the failure ConnectionClosed or ReadError and not
    success).  On the live session of [world_a], for a read that fails
    with errno 104 and for a read of zero bytes: whatever the tokenizer,
    [group_dispatch] returns nothing but 0, since the result of [read] is
    stored in [rv] and never looked at; and with [make_args] it does
    return 0, having called no handler. *)
Theorem C2_dispatch_returns_0_when_the_read_fails :
  (∀ tk, returns_0 (group_dispatch_with tk
                      {| o_read := Read_fail 104; o_nodeids := true |}
                      4096 world_a))
  ∧ (∀ tk, returns_0 (group_dispatch_with tk
                        {| o_read := Read_ok []; o_nodeids := true |}
                        4096 world_a))
  ∧ traced (group_dispatch {| o_read := Read_fail 104; o_nodeids := true |}
              4096 world_a) = Some (0, [Sys_read 3 (-1)])
  ∧ traced (group_dispatch {| o_read := Read_ok []; o_nodeids := true |}
              4096 world_a) = Some (0, [Sys_read 3 0]).
Proof.
  split; [|split; [|split]].
  - intros tk. apply (group_dispatch_returns_0 _ _ _ _ _ valid_handle_a).
  - intros tk. apply (group_dispatch_returns_0 _ _ _ _ _ valid_handle_a).
  - vm_compute. reflexivity.
  - vm_compute. reflexivity.
Qed.

(** C3: the line "start g1 1 5 10 11 12" is cut into its seven tokens, and
    on a valid session whose start handler is set [group_dispatch] returns
    0 after one call, to the start handler, with the handle, the private
    pointer, the name "g1", event type 1, event number 5, the count 3 and
    the node ids 10, 11, 12 in that order. *)
Theorem C3_start_line_calls_start_handler w handle h :
  valid_handle w handle h →
  start (cbs h) ≠ 0 →
  make_args (lit "start g1 1 5 10 11 12") " "%char
  = [lit "start"; lit "g1"; lit "1"; lit "5"; lit "10"; lit "11"; lit "12"]
  ∧ group_dispatch
      {| o_read := Read_ok (lit "start g1 1 5 10 11 12"); o_nodeids := true |}
      handle w
    = Done 0
        (emit (Call_start (start (cbs h)) handle (private h) (lit "g1")
                 1 5 3 [10; 11; 12])
           (emit (Sys_read (fd h) 21) w)).
Proof.
  intros Hv Hfn. split; [reflexivity|].
  unfold group_dispatch.
  rewrite (dispatch_read_ok make_args
             {| o_read := Read_ok (lit "start g1 1 5 10 11 12");
                o_nodeids := true |} _ _ _ _ Hv eq_refl)
    by (vm_compute; lia).
  change (make_args (c_str (lit "start g1 1 5 10 11 12")) " "%char)
    with [lit "start"; lit "g1"; lit "1"; lit "5"; lit "10"; lit "11"; lit "12"].
  cbn [o_nodeids]. unfold bind at 1. unfold dispatch_action.
  cbn [arg lookup list_lookup]. unfold bind at 1, ret at 1.
  decide_action.
  unfold bind, ret, fill_nodeids, call. cbn [drop arg lookup list_lookup].
  destruct (Z.eqb_spec (start (cbs h)) 0) as [?|_]; [done|].
  reflexivity.
Qed.

Lemma C3_start_line_calls_start_handler_witness :
  make_args (lit "start g1 1 5 10 11 12") " "%char
  = [lit "start"; lit "g1"; lit "1"; lit "5"; lit "10"; lit "11"; lit "12"]
  ∧ group_dispatch
      {| o_read := Read_ok (lit "start g1 1 5 10 11 12"); o_nodeids := true |}
      4096 world_a
    = Done 0
        (emit (Call_start 12 4096 77 (lit "g1") 1 5 3 [10; 11; 12])
           (emit (Sys_read 3 21) world_a)).
Proof.
  apply (C3_start_line_calls_start_handler world_a 4096 handle_a).
  - split; [lia | split; reflexivity].
  - cbn. lia.
Defined.

(** C4: whatever the tokenizer, when the line received on a valid session
    fits the buffer and its first token is none of stop, start, finish,
    terminate, set_id, [group_dispatch] returns 0 and adds nothing to the
    trace but its read: no handler is called. *)
Theorem C4_unrecognized_action_is_dropped tk o w handle h data act rest :
  valid_handle w handle h →
  o_read o = Read_ok data →
  (length data < MAXLINE)%nat →
  tk (c_str data) " "%char = act :: rest →
  act ∉ recognized →
  group_dispatch_with tk o handle w
  = Done 0 (emit (Sys_read (fd h) (Z.of_nat (length data))) w).
Proof.
  intros Hv Hr Hlen Htok Hact.
  rewrite (dispatch_read_ok _ _ _ _ _ _ Hv Hr Hlen), Htok.
  by rewrite (dispatch_action_other _ _ _ _ _ Hact).
Qed.

Lemma C4_unrecognized_action_is_dropped_witness :
  group_dispatch_with make_args
    {| o_read := Read_ok (lit "frobnicate x y"); o_nodeids := true |}
    4096 world_a
  = Done 0 (emit (Sys_read 3 14) world_a).
Proof.
  apply (C4_unrecognized_action_is_dropped make_args _ world_a 4096 handle_a
           (lit "frobnicate x y") (lit "frobnicate") [lit "x"; lit "y"]).
  - split; [lia | split; reflexivity].
  - reflexivity.
  - vm_compute. lia.
  - reflexivity.
  - vm_compute. intros H.
    repeat (apply elem_of_cons in H as [H|H]; [discriminate H|]).
    by apply elem_of_nil in H.
Defined.



(** C10: whatever the tokenizer, when the line received on a valid session
    has "start" as its first token and fewer than four tokens in all, the
    count [argc - 4] handed to the allocation is negative, slot 3 of
    [argv] lies past the filled part, and [group_dispatch] reads [argv]
    beyond [argc]: there is no guard on the number of arguments, and the
    execution ends in the out-of-bounds outcome. *)
Theorem C10_short_start_line_reads_past_argc tk o w handle h data rest :
  valid_handle w handle h →
  o_read o = Read_ok data →
  (length data < MAXLINE)%nat →
  tk (c_str data) " "%char = lit "start" :: rest →
  (length (lit "start" :: rest) < 4)%nat →
  start_count (Z.of_nat (length (lit "start" :: rest))) < 0
  ∧ (lit "start" :: rest) !! 3%nat = None
  ∧ group_dispatch_with tk o handle w = Undef Argv_uninit.
Proof.
  intros Hv Hr Hlen Htok Hargc. split; [|split].
  - unfold start_count. lia.
  - apply lookup_ge_None. lia.
  - rewrite (dispatch_read_ok _ _ _ _ _ _ Hv Hr Hlen), Htok.
    unfold bind at 1. unfold dispatch_action.
    cbn [arg lookup list_lookup]. unfold bind at 1, ret at 1.
    decide_action.
    destruct rest as [|a1 [|a2 [|a3 rest]]]; cbn in Hargc; try lia;
      reflexivity.
Qed.

Lemma C10_short_start_line_reads_past_argc_witness :
  start_count (Z.of_nat (length [lit "start"; lit "g1"; lit "1"])) < 0
  ∧ [lit "start"; lit "g1"; lit "1"] !! 3%nat = None
  ∧ group_dispatch_with make_args
      {| o_read := Read_ok (lit "start g1 1"); o_nodeids := true |}
      4096 world_a
    = Undef Argv_uninit.
Proof.
  apply (C10_short_start_line_reads_past_argc make_args
           {| o_read := Read_ok (lit "start g1 1"); o_nodeids := true |}
           world_a 4096 handle_a (lit "start g1 1") [lit "g1"; lit "1"]).
  - split; [lia | split; reflexivity].
  - reflexivity.
  - vm_compute. lia.
  - reflexivity.
  - vm_compute. lia.
Defined.

(** ** Rejected handles *)

Lemma run_op_invalid tk w handle c :
  invalid_handle w handle →
  run_op tk handle c w = Done (-1) (set_errno EINVAL w).
Proof.
  intros Hi. destruct c; cbn [run_op];
    unfold group_join, group_leave, group_done, group_get_fd,
      group_dispatch_with, group_exit;
    apply (with_handle_invalid _ _ _ Hi).
Qed.

Lemma run_ops_invalid tk handle cs w :
  invalid_handle w handle →
  run_ops tk handle cs w
  = Done (replicate (length cs) (-1))
      (match cs with [] => w | _ :: _ => set_errno EINVAL w end).
Proof.
  revert w. induction cs as [|c cs IH]; intros w Hi; [done|].
  cbn [run_ops length replicate]. unfold bind at 1.
  rewrite (run_op_invalid _ _ _ _ Hi). unfold bind at 1.
  rewrite (IH _ (invalid_handle_set_errno EINVAL _ _ Hi)).
  unfold ret. by destruct cs.
Qed.



(** C5 (the claim as first stated: on a handle on which close has
    succeeded every later operation fails with InvalidHandle).  The
    session of [world_a] is closed with success.  Right after that,
    descriptor access on the closed handle reads the freed block, which
    is undefined and not the InvalidHandle failure.  Then a new session
    is opened and the allocator hands out the same address again:
    descriptor access on the old, closed handle now succeeds and returns
    the descriptor of the new session. *)
Lemma C5_closed_handle_is_accepted_after_reuse :
  match group_exit 4096 world_a with
  | Done rv w1 =>
      rv = 0
      ∧ group_get_fd 4096 w1 = Undef Use_after_free
      ∧ match group_init (oracle_up 14) 77 (lit "fenced") 1 512 w1 with
        | Done handle w2 => handle = 4096 ∧ group_get_fd 4096 w2 = Done 3 w2
        | Undef _ => False
        end
  | Undef _ => False
  end.
Proof. vm_compute. repeat split; reflexivity. Qed.

(** C5, amended: on a handle that is null, or that points at a live
    object whose magic field is not the magic number, each of join,
    leave, acknowledge-done, descriptor access, dispatch and close
    returns -1 from the validation at its head, and so does every one of
    a sequence of them: [errno] becomes EINVAL and nothing else moves,
    neither the heap, nor the descriptors, nor the callback sets, nor the
    trace of system calls and handler calls.  Nothing is said of a handle
    on which close has succeeded. *)
Theorem C5_null_or_foreign_handle_is_rejected tk w handle cs :
  invalid_handle w handle →
  (∀ c, run_op tk handle c w = Done (-1) (set_errno EINVAL w))
  ∧ run_ops tk handle cs w
    = Done (replicate (length cs) (-1))
        (match cs with [] => w | _ :: _ => set_errno EINVAL w end)
  ∧ trace (set_errno EINVAL w) = trace w
  ∧ heap (set_errno EINVAL w) = heap w
  ∧ open_fds (set_errno EINVAL w) = open_fds w
  ∧ app_cbs (set_errno EINVAL w) = app_cbs w.
Proof.
  intros Hi. split; [|split; [|done]].
  - intros c. by apply run_op_invalid.
  - by apply run_ops_invalid.
Qed.

Lemma C5_null_or_foreign_handle_is_rejected_witness :
  (∀ c, run_op make_args 8192 c world_b
        = Done (-1) (set_errno EINVAL world_b))
  ∧ run_ops make_args 8192
      [Op_join (Sys_ok 7) (lit "g1") []; Op_get_fd; Op_exit] world_b
    = Done (replicate
              (length [Op_join (Sys_ok 7) (lit "g1") []; Op_get_fd; Op_exit])
              (-1))
        (set_errno EINVAL world_b)
  ∧ trace (set_errno EINVAL world_b) = trace world_b
  ∧ heap (set_errno EINVAL world_b) = heap world_b
  ∧ open_fds (set_errno EINVAL world_b) = open_fds world_b
  ∧ app_cbs (set_errno EINVAL world_b) = app_cbs world_b.
Proof.
  apply (C5_null_or_foreign_handle_is_rejected make_args world_b 8192
           [Op_join (Sys_ok 7) (lit "g1") []; Op_get_fd; Op_exit]).
  right. exists {| live := true; obj := clear_magic handle_a |}.
  split; [reflexivity|]. split; [reflexivity|]. vm_compute. discriminate.
Defined.

(** ** Opening a session *)

Lemma difference_union_fresh (d : Z) (s : gset Z) :
  d ∉ s → ({[d]} ∪ s) ∖ {[d]} = s.
Proof.
  intros Hd. apply set_eq. intros x.
  rewrite elem_of_difference, elem_of_union, !elem_of_singleton.
  split.
  - intros [[Hx|Hx] Hne]; [contradiction | exact Hx].
  - intros Hx. split; [by right|]. intros ->. contradiction.
Qed.

Lemma malloc_ok p w : p ≠ 0 → malloc p w = Done p w.
Proof. intros Hp. unfold malloc. by destruct (Z.eqb_spec p 0). Qed.

(** C6: when [socket] fails, or [socket] gives a fresh descriptor and
    [connect] fails, [group_init] returns the null handle with the [errno]
    of the call that failed, the block it had allocated is freed, every
    other block is as before, and the set of open descriptors is the one
    it started from: the descriptor, if one was created, has been closed
    (the close is the last system call made). *)
Theorem C6_init_failure_releases_handle_and_descriptor
    o private prog_name level cbs w e :
  o_malloc o ≠ 0 →
  is_Some (app_cbs w !! cbs) →
  (∀ d, d ∈ open_fds w → 0 ≤ d) →
  o_socket o = Sys_fail e
  ∨ (∃ d, o_socket o = Sys_ok d ∧ 0 ≤ d ∧ (d ∉ open_fds w)
          ∧ o_connect o = Sys_fail e) →
  ∃ w', group_init o private prog_name level cbs w = Done 0 w'
        ∧ errno w' = e
        ∧ open_fds w' = open_fds w
        ∧ (live <$> heap w' !! o_malloc o) = Some false
        ∧ (∀ q, q ≠ o_malloc o → heap w' !! q = heap w !! q)
        ∧ app_cbs w' = app_cbs w
        ∧ (∀ d, o_socket o = Sys_ok d → last (trace w') = Some (Sys_close d)).
Proof.
  intros Hp [c Hc] Hfds Hfail. unfold group_init.
  unfold bind at 1. rewrite (malloc_ok _ _ Hp).
  destruct (Z.eqb_spec (o_malloc o) 0) as [?|_]; [done|].
  unfold bind at 1. unfold load_cbs. rewrite Hc.
  unfold bind at 1. unfold sys_socket.
  destruct Hfail as [Hs|(d & Hs & Hd & Hfresh & Hconn)]; rewrite Hs.
  - unfold bind at 1. unfold store.
    change (-1 <? 0) with true. cbn iota.
    unfold init_fail, bind, load, sys_close, free. cbn.
    rewrite lookup_insert_eq. cbn.
    assert (Hno : -1 ∉ open_fds w) by (intros Hin; apply Hfds in Hin; lia).
    destruct (decide (-1 ∈ open_fds w)) as [?|_]; [done|].
    eexists. split; [reflexivity|]. cbn.
    split; [done|]. split; [done|].
    split; [by rewrite lookup_alter_eq, lookup_insert_eq|].
    split; [|split; [done|intros d' Hd'; discriminate Hd']].
    intros q Hq. by rewrite lookup_alter_ne, lookup_insert_ne.
  - unfold bind at 1. unfold store.
    destruct (Z.ltb_spec d 0) as [?|_]; [lia|].
    unfold bind at 1. unfold sys_connect. rewrite Hconn.
    change (-1 <? 0) with true. cbn iota.
    unfold init_fail, bind, load, sys_close, free. cbn.
    rewrite lookup_insert_eq. cbn.
    destruct (decide (d ∈ {[d]} ∪ open_fds w)) as [_|Hn]; [|set_solver].
    eexists. split; [reflexivity|]. cbn.
    split; [done|]. split; [apply difference_union_fresh, Hfresh|].
    split; [by rewrite lookup_alter_eq, lookup_insert_eq|].
    split; [|split; [done|]].
    + intros q Hq. by rewrite lookup_alter_ne, lookup_insert_ne.
    + intros d' Hd'. assert (d' = d) as -> by congruence.
      apply last_snoc.
Qed.

Lemma C6_init_failure_releases_handle_and_descriptor_witness :
  ∃ w', group_init
          {| o_malloc := 4096; o_socket := Sys_ok 3;
             o_connect := Sys_fail 111; o_write := Sys_ok 0 |}
          77 (lit "fenced") 1 512 world_0 = Done 0 w'
        ∧ errno w' = 111
        ∧ open_fds w' = open_fds world_0
        ∧ (live <$> heap w' !! 4096) = Some false
        ∧ (∀ q, q ≠ 4096 → heap w' !! q = heap world_0 !! q)
        ∧ app_cbs w' = app_cbs world_0
        ∧ (∀ d, Sys_ok 3 = Sys_ok d → last (trace w') = Some (Sys_close d)).
Proof.
  apply (C6_init_failure_releases_handle_and_descriptor
           {| o_malloc := 4096; o_socket := Sys_ok 3;
              o_connect := Sys_fail 111; o_write := Sys_ok 0 |}
           77 (lit "fenced") 1 512 world_0 111).
  - cbn. lia.
  - exists cbs_a. reflexivity.
  - intros d Hd. cbn in Hd. set_solver.
  - right. exists 3. cbn. split; [reflexivity|]. split; [lia|].
    split; [set_solver | reflexivity].
Defined.

(** *** The handshake line *)

Lemma nul_free_app (a b : list ascii) :
  nul_free a → nul_free b → nul_free (a ++ b).
Proof. unfold nul_free. rewrite existsb_app. by intros -> ->. Qed.

Lemma nul_free_c_str (l : list ascii) : nul_free (c_str l).
Proof.
  unfold nul_free. induction l as [|c l IH]; [done|].
  cbn [c_str]. destruct (is_nul c) eqn:Hc; [done|]. cbn. by rewrite Hc.
Qed.

Lemma nul_free_uint (d : Decimal.uint) :
  nul_free (lit (NilEmpty.string_of_uint d)).
Proof. unfold nul_free. induction d; cbn; done. Qed.

Lemma nul_free_fmt_d (z : Z) : nul_free (fmt_d z).
Proof.
  unfold fmt_d, NilZero.string_of_int.
  destruct (Z.to_int z) as [d|d]; unfold NilZero.string_of_uint.
  - destruct d; try apply nul_free_uint. done.
  - change (nul_free (lit "-" ++ lit (match d with
                                       | Decimal.Nil => "0"
                                       | _ => NilEmpty.string_of_uint d
                                       end))).
    apply nul_free_app; [done|].
    destruct d; try apply nul_free_uint. done.
Qed.

Lemma c_str_terminated (s r : list ascii) :
  nul_free s → c_str (s ++ NUL :: r) = s.
Proof.
  unfold nul_free. induction s as [|c s IH]; [done|].
  cbn. destruct (is_nul c); [done|]. cbn. intros Hs. by rewrite IH.
Qed.

Lemma strlen_terminated (s r : list ascii) :
  nul_free s → strlen (s ++ NUL :: r) = Some (length s).
Proof.
  intros Hs. unfold strlen. rewrite existsb_app. cbn.
  rewrite orb_true_r. by rewrite c_str_terminated.
Qed.

Lemma nul_free_setup_line prog_name level :
  nul_free (lit "setup " ++ c_str prog_name ++ lit " " ++ fmt_d level).
Proof.
  apply nul_free_app; [done|]. apply nul_free_app; [apply nul_free_c_str|].
  apply nul_free_app; [done|]. apply nul_free_fmt_d.
Qed.

(** C7 (the claim as first stated: the handshake line carries the program
    name cut to the fixed maximum length).  With a program name of 40
    bytes and everything granted, the line handed to [write] holds all 40
    bytes of the name; it is not the line built from the first 32. *)
Lemma C7_long_name_is_sent_whole :
  traced (group_init (oracle_up 48) 77 long_name 1 512 world_0)
  = Some (4096,
          [Sys_socket 3; Sys_connect 3 0;
           Sys_write 3
             (lit "setup 0123456789abcdefghijklmnopqrstuvwxyzABCD 1") 48])
  ∧ lit "setup 0123456789abcdefghijklmnopqrstuvwxyzABCD 1"
    ≠ lit "setup " ++ take 32 long_name ++ lit " " ++ fmt_d 1.
Proof.
  split.
  - vm_compute. reflexivity.
  - vm_compute. discriminate.
Qed.

(** C7, amended: when the allocation, [socket], [connect] and [write] all
    succeed and the line fits the buffer of [MAXLINE] bytes with its
    terminator, [group_init] hands to [write], as its only write, the
    bytes "setup ", the whole program name, a space and the level in
    decimal; the cut to 32 bytes is applied only to the copy of the name
    kept in the handle. *)
Theorem C7_handshake_carries_the_whole_program_name
    o private prog_name level cbs w c d v n :
  o_malloc o ≠ 0 →
  app_cbs w !! cbs = Some c →
  o_socket o = Sys_ok d → 0 ≤ d →
  o_connect o = Sys_ok v → 0 ≤ v →
  o_write o = Sys_ok n → 0 ≤ n →
  (length (lit "setup " ++ c_str prog_name ++ lit " " ++ fmt_d level)
   < MAXLINE)%nat →
  ∃ w', group_init o private prog_name level cbs w = Done (o_malloc o) w'
        ∧ trace w'
          = trace w
            ++ [Sys_socket d; Sys_connect d v;
                Sys_write d
                  (lit "setup " ++ c_str prog_name ++ lit " " ++ fmt_d level)
                  n]
        ∧ (stored_name <$> heap w' !! o_malloc o)
          = Some (take 32 (c_str prog_name)
                  ++ replicate (32 - length (c_str prog_name)) NUL).
Proof.
  intros Hp Hc Hs Hd Hconn Hv Hw Hn Hlen. unfold group_init.
  unfold bind at 1. rewrite (malloc_ok _ _ Hp).
  destruct (Z.eqb_spec (o_malloc o) 0) as [?|_]; [done|].
  unfold bind at 1. unfold load_cbs. rewrite Hc.
  unfold bind at 1. unfold sys_socket. rewrite Hs.
  unfold bind at 1. unfold store.
  destruct (Z.ltb_spec d 0) as [?|_]; [lia|].
  unfold bind at 1. unfold sys_connect. rewrite Hconn.
  destruct (Z.ltb_spec v 0) as [?|_]; [lia|].
  unfold bind at 1. unfold sprintf.
  replace (length (memset0 MAXLINE)) with MAXLINE
    by (unfold memset0; by rewrite length_replicate).
  destruct (Nat.ltb_spec
              (length (lit "setup " ++ c_str prog_name ++ lit " " ++ fmt_d level))
              MAXLINE) as [_|?]; [|lia].
  unfold ret at 1. unfold bind at 1. unfold strlen_of.
  rewrite strlen_terminated by apply nul_free_setup_line.
  unfold ret at 1. unfold bind at 1. unfold sys_write. rewrite Hw.
  rewrite take_app_length.
  destruct (Z.ltb_spec n 0) as [?|_]; [lia|].
  eexists. split; [reflexivity|]. cbn. split.
  - by rewrite <- !app_assoc.
  - by rewrite lookup_insert_eq.
Qed.

Lemma C7_handshake_carries_the_whole_program_name_witness :
  ∃ w', group_init (oracle_up 48) 77 long_name 1 512 world_0
        = Done (o_malloc (oracle_up 48)) w'
        ∧ trace w'
          = trace world_0
            ++ [Sys_socket 3; Sys_connect 3 0;
                Sys_write 3
                  (lit "setup " ++ c_str long_name ++ lit " " ++ fmt_d 1) 48]
        ∧ (stored_name <$> heap w' !! o_malloc (oracle_up 48))
          = Some (take 32 (c_str long_name)
                  ++ replicate (32 - length (c_str long_name)) NUL).
Proof.
  apply (C7_handshake_carries_the_whole_program_name
           (oracle_up 48) 77 long_name 1 512 world_0 cbs_a 3 0 48).
  - cbn. lia.
  - reflexivity.
  - reflexivity.
  - lia.
  - reflexivity.
  - lia.
  - reflexivity.
  - lia.
  - vm_compute. lia.
Defined.

(** ** The callback set of a session *)

Lemma init_fail_null h w a w' : init_fail h w = Done a w' → a = 0.
Proof.
  unfold init_fail, bind, load, sys_close, free.
  repeat case_match; intros; simplify_eq; done.
Qed.

(** A session that [group_init] returns holds the value [*cbs] had when
    [group_init] ran. *)
Lemma group_init_success o private prog_name level cbsp w c handle w1 :
  app_cbs w !! cbsp = Some c →
  group_init o private prog_name level cbsp w = Done handle w1 →
  handle ≠ 0 →
  ∃ d, heap w1 !! handle
       = Some {| live := true;
                 obj := {| magic := LIBGROUP_MAGIC; fd := d; level := level;
                           private := private; cbs := c;
                           prog_name := strncpy 32 prog_name |} |}.
Proof.
  intros Hc Hrun Hnz. revert Hrun.
  unfold group_init, bind, malloc, load_cbs, sys_socket, store, sys_connect,
    sprintf, strlen_of, sys_write, ret, undefined.
  destruct (o_malloc o =? 0) eqn:Hm; cbn; rewrite ?Hm;
    [intros ?; by simplify_eq|].
  rewrite Hc.
  repeat case_match; intros Hrun; simplify_eq;
    try (apply init_fail_null in Hrun; done);
    eexists; cbn; apply lookup_insert_eq.
Qed.

(** What [dispatch_action] adds to the trace is at most one call, through
    the member of [h->cbs] for the action; it touches nothing else. *)
Lemma dispatch_action_calls alloc_ok handle h argv w w' :
  dispatch_action alloc_ok handle h argv w = Done tt w' →
  w' = w ∨ ∃ e, w' = emit e w ∧ from_set (cbs h) e.
Proof.
  unfold dispatch_action, bind, arg, fill_nodeids, call, ret, undefined.
  repeat case_match; intros Hrun; simplify_eq; eauto;
    right; eexists; (split; [reflexivity|done]).
Qed.

Lemma group_dispatch_calls tk od w handle h rv w' :
  valid_handle w handle h →
  group_dispatch_with tk od handle w = Done rv w' →
  ∃ evs, trace w' = trace w ++ evs ∧ Forall (from_set (cbs h)) evs.
Proof.
  intros Hv. unfold group_dispatch_with.
  rewrite (with_handle_valid _ _ _ _ Hv).
  unfold bind at 1. unfold sys_read.
  destruct (o_read od) as [data|e]; cbn [snd];
    unfold bind at 1; unfold strlen_of;
    (destruct (strlen _); [|discriminate]);
    unfold ret at 1; unfold bind at 1;
    (destruct (dispatch_action _ _ _ _ _) as [|[] w''] eqn:Hact;
       [discriminate|]);
    unfold ret; intros Hrun; simplify_eq;
    apply dispatch_action_calls in Hact as [->|(ev & -> & Hev)]; cbn.
  - exists [Sys_read (fd h) (Z.of_nat (length (take (length (memset0 MAXLINE)) data)))].
    split; [done|]. by repeat constructor.
  - eexists [_; ev]. split; [by rewrite <- app_assoc|]. by repeat constructor.
  - exists [Sys_read (fd h) (-1)]. split; [done|]. by repeat constructor.
  - eexists [_; ev]. split; [by rewrite <- app_assoc|]. by repeat constructor.
Qed.

(** C8 (the claim as first stated: the session refers to the caller's
    callback set, so a change the application makes to the set after open
    decides which handler dispatch calls).  A session is opened while the
    set at address 512 is [cbs_a]; the application then stores [cbs_b]
    there; a "stop g1" line is dispatched.  The handler called is the stop
    member of [cbs_a], the value of the set at open time, and not the one
    stored in the caller's set when dispatch runs. *)
Lemma C8_dispatch_ignores_later_changes_to_the_set :
  match group_init (oracle_up 14) 77 (lit "fenced") 1 512 world_0 with
  | Done handle w1 =>
      let w2 := set_app_cbs (<[512 := cbs_b]> (app_cbs w1)) w1 in
      app_cbs w2 !! 512 = Some cbs_b
      ∧ traced (group_dispatch
                  {| o_read := Read_ok (lit "stop g1"); o_nodeids := true |}
                  handle w2)
        = Some (0, [Sys_socket 3; Sys_connect 3 0;
                    Sys_write 3 (lit "setup fenced 1") 14;
                    Sys_read 3 7;
                    Call_stop (stop cbs_a) handle 77 (lit "g1")])
      ∧ stop cbs_a ≠ stop cbs_b
  | Undef _ => False
  end.
Proof. vm_compute. repeat split; discriminate. Qed.

(** C8, amended: the session holds a copy of the callback set, made by
    [group_init] from the caller's set as it was at that time.  Whatever
    the application stores in its own set afterwards, every handler call
    a later [group_dispatch] on that session makes goes through the member
    of that copy for the event kind. *)
Theorem C8_dispatch_calls_the_handlers_copied_at_open
    o private prog_name level cbsp w c handle w1 tk od w2 rv w3 :
  app_cbs w !! cbsp = Some c →
  group_init o private prog_name level cbsp w = Done handle w1 →
  handle ≠ 0 →
  heap w2 !! handle = heap w1 !! handle →
  group_dispatch_with tk od handle w2 = Done rv w3 →
  (stored_cbs <$> heap w1 !! handle) = Some c
  ∧ ∃ evs, trace w3 = trace w2 ++ evs ∧ Forall (from_set c) evs.
Proof.
  intros Hc Hinit Hnz Hsame Hrun.
  destruct (group_init_success _ _ _ _ _ _ _ _ _ Hc Hinit Hnz) as [d Hblk].
  split; [by rewrite Hblk|].
  rewrite <- Hsame in Hblk.
  by apply (group_dispatch_calls tk od w2 handle _ rv w3 (conj Hnz (conj Hblk eq_refl))).
Qed.

Lemma C8_dispatch_calls_the_handlers_copied_at_open_witness :
  (stored_cbs <$> heap world_1 !! 4096) = Some cbs_a
  ∧ ∃ evs, trace world_3 = trace world_2 ++ evs ∧ Forall (from_set cbs_a) evs.
Proof.
  apply (C8_dispatch_calls_the_handlers_copied_at_open
           (oracle_up 14) 77 (lit "fenced") 1 512 world_0 cbs_a 4096 world_1
           make_args
           {| o_read := Read_ok (lit "stop g1"); o_nodeids := true |}
           world_2 0 world_3).
  - reflexivity.
  - vm_compute. reflexivity.
  - lia.
  - reflexivity.
  - vm_compute. reflexivity.
Defined.

(** * Further properties of the library *)

(** ** The command encoder *)

(** X1: on every valid session, whatever the group name and whatever the
    kernel would answer, [group_leave], like [group_join] and
    [group_done], stops at the [sprintf] whose destination is the format
    literal: no [write] is issued and nothing is returned. *)
Theorem X1_encoder_never_reaches_write o w handle h name info event_nr :
  valid_handle w handle h →
  group_leave o handle name info w = Undef Store_to_literal
  ∧ group_join o handle name info w = Undef Store_to_literal
  ∧ group_done o handle name event_nr w = Undef Store_to_literal.
Proof.
  intros Hv. split; [|split].
  - by apply (group_leave_valid _ _ _ h).
  - by apply (group_join_valid _ _ _ h).
  - by apply (group_done_valid _ _ _ h).
Qed.

Lemma X1_encoder_never_reaches_write_witness :
  group_leave (Sys_ok 8) 4096 (lit "g1") [] world_a = Undef Store_to_literal
  ∧ group_join (Sys_ok 8) 4096 (lit "g1") [] world_a = Undef Store_to_literal
  ∧ group_done (Sys_ok 8) 4096 (lit "g1") 7 world_a = Undef Store_to_literal.
Proof.
  apply (X1_encoder_never_reaches_write (Sys_ok 8) world_a 4096 handle_a).
  split; [lia | split; reflexivity].
Defined.

(** ** Opening and closing a session *)

Lemma memset0_length n : length (memset0 n) = n.
Proof. unfold memset0. apply length_replicate. Qed.

(** The run of [group_init] up to the formatting of the handshake, when
    the allocation, [socket] and [connect] succeed. *)
Lemma group_init_connected o private prog_name level cbs w c d v :
  o_malloc o ≠ 0 →
  app_cbs w !! cbs = Some c →
  o_socket o = Sys_ok d → 0 ≤ d →
  o_connect o = Sys_ok v → 0 ≤ v →
  group_init o private prog_name level cbs w
  = (buf <- sprintf (memset0 MAXLINE) (setup_line prog_name level) ;;
     n <- strlen_of buf ;;
     rv <- sys_write d (take n buf) (o_write o) ;;
     if rv <? 0 then init_fail (o_malloc o) else ret (o_malloc o))
      (emit (Sys_connect d v)
         (with_session (o_malloc o) (session private prog_name level c d) d w)).
Proof.
  intros Hp Hc Hs Hd Hconn Hv. unfold group_init.
  unfold bind at 1. rewrite (malloc_ok _ _ Hp).
  destruct (Z.eqb_spec (o_malloc o) 0) as [?|_]; [done|].
  unfold bind at 1. unfold load_cbs. rewrite Hc.
  unfold bind at 1. unfold sys_socket. rewrite Hs.
  unfold bind at 1. unfold store.
  destruct (Z.ltb_spec d 0) as [?|_]; [lia|].
  unfold bind at 1. unfold sys_connect. rewrite Hconn.
  destruct (Z.ltb_spec v 0) as [?|_]; [lia|].
  reflexivity.
Qed.

(** The same run up to the result of [write], when the line fits. *)
Lemma group_init_written o private prog_name level cbs w c d v :
  o_malloc o ≠ 0 →
  app_cbs w !! cbs = Some c →
  o_socket o = Sys_ok d → 0 ≤ d →
  o_connect o = Sys_ok v → 0 ≤ v →
  (length (setup_line prog_name level) < MAXLINE)%nat →
  group_init o private prog_name level cbs w
  = (rv <- sys_write d (setup_line prog_name level) (o_write o) ;;
     if rv <? 0 then init_fail (o_malloc o) else ret (o_malloc o))
      (emit (Sys_connect d v)
         (with_session (o_malloc o) (session private prog_name level c d) d w)).
Proof.
  intros Hp Hc Hs Hd Hconn Hv Hlen.
  rewrite (group_init_connected _ _ _ _ _ _ c d v) by done.
  unfold bind at 1. unfold sprintf. rewrite memset0_length.
  destruct (Nat.ltb_spec (length (setup_line prog_name level)) MAXLINE)
    as [_|?]; [|lia].
  unfold ret at 1. unfold bind at 1. unfold strlen_of.
  rewrite strlen_terminated by apply nul_free_setup_line.
  unfold ret at 1. by rewrite take_app_length.
Qed.

Lemma group_init_opened o private prog_name level cbs w c d v n :
  o_malloc o ≠ 0 →
  app_cbs w !! cbs = Some c →
  o_socket o = Sys_ok d → 0 ≤ d →
  o_connect o = Sys_ok v → 0 ≤ v →
  o_write o = Sys_ok n → 0 ≤ n →
  (length (setup_line prog_name level) < MAXLINE)%nat →
  group_init o private prog_name level cbs w
  = Done (o_malloc o)
      (emit (Sys_write d (setup_line prog_name level) n)
         (emit (Sys_connect d v)
            (with_session (o_malloc o)
               (session private prog_name level c d) d w))).
Proof.
  intros Hp Hc Hs Hd Hconn Hv Hw Hn Hlen.
  rewrite (group_init_written _ _ _ _ _ _ c d v) by done.
  unfold bind, sys_write. rewrite Hw.
  by destruct (Z.ltb_spec n 0) as [?|_]; [lia|].
Qed.

(** X2: when the allocation, [socket], [connect] and [write] succeed and
    the handshake fits the buffer, the handle [group_init] returns is a
    valid session: it passes the validation, [group_get_fd] on it gives
    the descriptor [socket] returned and changes nothing, its level and
    private pointer are the arguments of the call, the open descriptors
    are the former ones and the new one, and no other block and no
    callback set of the application is touched. *)
Theorem X2_opened_session_is_valid
    o private prog_name level cbs w c d v n :
  o_malloc o ≠ 0 →
  app_cbs w !! cbs = Some c →
  o_socket o = Sys_ok d → 0 ≤ d →
  o_connect o = Sys_ok v → 0 ≤ v →
  o_write o = Sys_ok n → 0 ≤ n →
  (length (setup_line prog_name level) < MAXLINE)%nat →
  ∃ w', group_init o private prog_name level cbs w = Done (o_malloc o) w'
        ∧ valid_handle w' (o_malloc o) (session private prog_name level c d)
        ∧ group_get_fd (o_malloc o) w' = Done d w'
        ∧ open_fds w' = {[d]} ∪ open_fds w
        ∧ app_cbs w' = app_cbs w
        ∧ (∀ q, q ≠ o_malloc o → heap w' !! q = heap w !! q).
Proof.
  intros Hp Hc Hs Hd Hconn Hv Hw Hn Hlen.
  eexists. split; [by apply (group_init_opened _ _ _ _ _ _ c d v n)|].
  assert (Hvalid : valid_handle
            (emit (Sys_write d (setup_line prog_name level) n)
               (emit (Sys_connect d v)
                  (with_session (o_malloc o)
                     (session private prog_name level c d) d w)))
            (o_malloc o) (session private prog_name level c d)).
  { split; [done|]. split; [|done]. cbn. apply lookup_insert_eq. }
  split; [done|]. split.
  { unfold group_get_fd. by rewrite (with_handle_valid _ _ _ _ Hvalid). }
  split; [done|]. split; [done|].
  intros q Hq. cbn. by rewrite lookup_insert_ne.
Qed.

Lemma X2_opened_session_is_valid_witness :
  ∃ w', group_init (oracle_up 14) 77 (lit "fenced") 1 512 world_0
        = Done (o_malloc (oracle_up 14)) w'
        ∧ valid_handle w' (o_malloc (oracle_up 14))
            (session 77 (lit "fenced") 1 cbs_a 3)
        ∧ group_get_fd (o_malloc (oracle_up 14)) w' = Done 3 w'
        ∧ open_fds w' = {[3]} ∪ open_fds world_0
        ∧ app_cbs w' = app_cbs world_0
        ∧ (∀ q, q ≠ o_malloc (oracle_up 14) →
                heap w' !! q = heap world_0 !! q).
Proof.
  apply (X2_opened_session_is_valid
           (oracle_up 14) 77 (lit "fenced") 1 512 world_0 cbs_a 3 0 14).
  - cbn. lia.
  - reflexivity.
  - reflexivity.
  - lia.
  - reflexivity.
  - lia.
  - reflexivity.
  - lia.
  - vm_compute. lia.
Defined.

(** X3: [group_init] tests the result of [write] for a negative value
    only.  When [write] takes fewer bytes than the handshake line has,
    even none, the session is returned all the same, valid, with the
    descriptor open. *)
Theorem X3_short_handshake_write_is_taken_as_success
    o private prog_name level cbs w c d v n :
  o_malloc o ≠ 0 →
  app_cbs w !! cbs = Some c →
  o_socket o = Sys_ok d → 0 ≤ d →
  o_connect o = Sys_ok v → 0 ≤ v →
  o_write o = Sys_ok n →
  0 ≤ n < Z.of_nat (length (setup_line prog_name level)) →
  (length (setup_line prog_name level) < MAXLINE)%nat →
  ∃ w', group_init o private prog_name level cbs w = Done (o_malloc o) w'
        ∧ last (trace w') = Some (Sys_write d (setup_line prog_name level) n)
        ∧ valid_handle w' (o_malloc o) (session private prog_name level c d)
        ∧ d ∈ open_fds w'.
Proof.
  intros Hp Hc Hs Hd Hconn Hv Hw [Hn _] Hlen.
  eexists. split; [by apply (group_init_opened _ _ _ _ _ _ c d v n)|].
  split; [apply last_snoc|]. split.
  - split; [done|]. split; [|done]. cbn. apply lookup_insert_eq.
  - cbn. apply elem_of_union_l, elem_of_singleton. reflexivity.
Qed.

Lemma X3_short_handshake_write_is_taken_as_success_witness :
  ∃ w', group_init (oracle_up 5) 77 (lit "fenced") 1 512 world_0
        = Done (o_malloc (oracle_up 5)) w'
        ∧ last (trace w') = Some (Sys_write 3 (setup_line (lit "fenced") 1) 5)
        ∧ valid_handle w' (o_malloc (oracle_up 5))
            (session 77 (lit "fenced") 1 cbs_a 3)
        ∧ 3 ∈ open_fds w'.
Proof.
  apply (X3_short_handshake_write_is_taken_as_success
           (oracle_up 5) 77 (lit "fenced") 1 512 world_0 cbs_a 3 0 5).
  - cbn. lia.
  - reflexivity.
  - reflexivity.
  - lia.
  - reflexivity.
  - lia.
  - reflexivity.
  - vm_compute. split; [discriminate | reflexivity].
  - vm_compute. lia.
Defined.

(** X4: when the allocation, [socket] and [connect] succeed and the
    [write] of the handshake fails, [group_init] returns the null handle
    with the [errno] of [write]; the descriptor is closed right after the
    failed write, the open descriptors are the ones it started from, the
    block is freed and no other block is touched. *)
Theorem X4_failed_handshake_write_is_cleaned_up
    o private prog_name level cbs w c d v e :
  o_malloc o ≠ 0 →
  app_cbs w !! cbs = Some c →
  o_socket o = Sys_ok d → 0 ≤ d → d ∉ open_fds w →
  o_connect o = Sys_ok v → 0 ≤ v →
  o_write o = Sys_fail e →
  (length (setup_line prog_name level) < MAXLINE)%nat →
  ∃ w', group_init o private prog_name level cbs w = Done 0 w'
        ∧ errno w' = e
        ∧ trace w'
          = trace w ++ [Sys_socket d; Sys_connect d v;
                        Sys_write d (setup_line prog_name level) (-1);
                        Sys_close d]
        ∧ open_fds w' = open_fds w
        ∧ (live <$> heap w' !! o_malloc o) = Some false
        ∧ (∀ q, q ≠ o_malloc o → heap w' !! q = heap w !! q).
Proof.
  intros Hp Hc Hs Hd Hfresh Hconn Hv Hw Hlen.
  rewrite (group_init_written _ _ _ _ _ _ c d v) by done.
  unfold bind at 1. unfold sys_write. rewrite Hw.
  change (-1 <? 0) with true. cbn iota.
  unfold init_fail, bind, load, sys_close, free. cbn.
  rewrite lookup_insert_eq. cbn.
  destruct (decide (d ∈ {[d]} ∪ open_fds w)) as [_|Hn];
    [|exfalso; apply Hn, elem_of_union_l, elem_of_singleton; reflexivity].
  eexists. split; [reflexivity|]. cbn.
  split; [done|]. split; [by rewrite <- !app_assoc|].
  split; [apply difference_union_fresh, Hfresh|].
  split; [by rewrite lookup_alter_eq, lookup_insert_eq|].
  intros q Hq. by rewrite lookup_alter_ne, lookup_insert_ne.
Qed.

Lemma X4_failed_handshake_write_is_cleaned_up_witness :
  ∃ w', group_init
          {| o_malloc := 4096; o_socket := Sys_ok 3; o_connect := Sys_ok 0;
             o_write := Sys_fail 32 |}
          77 (lit "fenced") 1 512 world_0 = Done 0 w'
        ∧ errno w' = 32
        ∧ trace w'
          = trace world_0
            ++ [Sys_socket 3; Sys_connect 3 0;
                Sys_write 3 (setup_line (lit "fenced") 1) (-1);
                Sys_close 3]
        ∧ open_fds w' = open_fds world_0
        ∧ (live <$> heap w' !! 4096) = Some false
        ∧ (∀ q, q ≠ 4096 → heap w' !! q = heap world_0 !! q).
Proof.
  apply (X4_failed_handshake_write_is_cleaned_up
           {| o_malloc := 4096; o_socket := Sys_ok 3; o_connect := Sys_ok 0;
              o_write := Sys_fail 32 |}
           77 (lit "fenced") 1 512 world_0 cbs_a 3 0 32).
  - cbn. lia.
  - reflexivity.
  - reflexivity.
  - lia.
  - cbn. apply not_elem_of_empty.
  - reflexivity.
  - lia.
  - reflexivity.
  - vm_compute. lia.
Defined.

(** X5: when the allocation fails, [group_init] returns the null handle
    at once: no system call is made, the callback set is not read (the
    pointer may even be wild), and nothing but [errno] changes. *)
Theorem X5_failed_allocation_makes_no_system_call
    o private prog_name level cbs w :
  o_malloc o = 0 →
  group_init o private prog_name level cbs w = Done 0 (set_errno ENOMEM w)
  ∧ trace (set_errno ENOMEM w) = trace w
  ∧ heap (set_errno ENOMEM w) = heap w
  ∧ open_fds (set_errno ENOMEM w) = open_fds w.
Proof.
  intros Hp. split; [|done].
  unfold group_init, bind, malloc. by rewrite Hp.
Qed.

Lemma X5_failed_allocation_makes_no_system_call_witness :
  group_init {| o_malloc := 0; o_socket := Sys_ok 3; o_connect := Sys_ok 0;
                o_write := Sys_ok 14 |}
    77 (lit "fenced") 1 999 world_0 = Done 0 (set_errno ENOMEM world_0)
  ∧ trace (set_errno ENOMEM world_0) = trace world_0
  ∧ heap (set_errno ENOMEM world_0) = heap world_0
  ∧ open_fds (set_errno ENOMEM world_0) = open_fds world_0.
Proof.
  apply (X5_failed_allocation_makes_no_system_call
           {| o_malloc := 0; o_socket := Sys_ok 3; o_connect := Sys_ok 0;
              o_write := Sys_ok 14 |}
           77 (lit "fenced") 1 999 world_0).
  reflexivity.
Defined.

Lemma fmt_d_nonempty (z : Z) : (1 ≤ length (fmt_d z))%nat.
Proof.
  unfold fmt_d, NilZero.string_of_int, NilZero.string_of_uint.
  destruct (Z.to_int z) as [d|d]; destruct d; cbn; lia.
Qed.

Lemma setup_line_length prog_name level :
  (length (c_str prog_name) + 8 ≤ length (setup_line prog_name level))%nat.
Proof.
  unfold setup_line. rewrite !length_app.
  pose proof (fmt_d_nonempty level). cbn. lia.
Qed.

(** X6: the program name is formatted into [buf] without a bound.  With a
    name of 248 bytes or more the handshake line and its terminator need
    more than the [MAXLINE] bytes of [buf], whatever the level: once
    [socket] and [connect] have succeeded, [sprintf] stores past the end
    of [buf].  C gives such a store no meaning, and the model gives the
    call no result. *)
Theorem X6_long_program_name_overflows_buf
    o private prog_name level cbs w c d v :
  o_malloc o ≠ 0 →
  app_cbs w !! cbs = Some c →
  o_socket o = Sys_ok d → 0 ≤ d →
  o_connect o = Sys_ok v → 0 ≤ v →
  (248 ≤ length (c_str prog_name))%nat →
  (MAXLINE < length (setup_line prog_name level) + 1)%nat
  ∧ group_init o private prog_name level cbs w = Undef Buffer_overflow.
Proof.
  intros Hp Hc Hs Hd Hconn Hv Hlen.
  pose proof (setup_line_length prog_name level).
  split; [unfold MAXLINE; lia|].
  rewrite (group_init_connected _ _ _ _ _ _ c d v) by done.
  unfold bind at 1. unfold sprintf. rewrite memset0_length.
  destruct (Nat.ltb_spec (length (setup_line prog_name level)) MAXLINE)
    as [Hfit|_]; [unfold MAXLINE in Hfit; lia|].
  reflexivity.
Qed.

Lemma X6_long_program_name_overflows_buf_witness :
  (MAXLINE < length (setup_line (replicate 248 "a"%char) 1) + 1)%nat
  ∧ group_init (oracle_up 0) 77 (replicate 248 "a"%char) 1 512 world_0
    = Undef Buffer_overflow.
Proof.
  apply (X6_long_program_name_overflows_buf
           (oracle_up 0) 77 (replicate 248 "a"%char) 1 512 world_0 cbs_a 3 0).
  - cbn. lia.
  - reflexivity.
  - reflexivity.
  - lia.
  - reflexivity.
  - lia.
  - vm_compute. lia.
Defined.

Lemma nul_free_take n (l : list ascii) : nul_free l → nul_free (take n l).
Proof.
  unfold nul_free. revert n. induction l as [|c l IH]; intros [|n]; try done.
  cbn. destruct (is_nul c); [done|]. cbn. apply IH.
Qed.

(** X7: the copy of the program name kept in the handle always has 32
    bytes.  For a name shorter than 32 bytes it is the name followed by
    NULs, so it reads back as the name; for a name of 32 bytes or more it
    is the first 32 bytes with no NUL among them, an array that is not a
    string. *)
Theorem X7_stored_program_name
    o private prog_name level cbs w c d v n :
  o_malloc o ≠ 0 →
  app_cbs w !! cbs = Some c →
  o_socket o = Sys_ok d → 0 ≤ d →
  o_connect o = Sys_ok v → 0 ≤ v →
  o_write o = Sys_ok n → 0 ≤ n →
  (length (setup_line prog_name level) < MAXLINE)%nat →
  ∃ w' b, group_init o private prog_name level cbs w = Done (o_malloc o) w'
          ∧ heap w' !! o_malloc o = Some b
          ∧ length (stored_name b) = 32%nat
          ∧ ((length (c_str prog_name) < 32)%nat →
             strlen (stored_name b) = Some (length (c_str prog_name))
             ∧ c_str (stored_name b) = c_str prog_name)
          ∧ ((32 ≤ length (c_str prog_name))%nat →
             stored_name b = take 32 (c_str prog_name)
             ∧ strlen (stored_name b) = None).
Proof.
  intros Hp Hc Hs Hd Hconn Hv Hw Hn Hlen.
  eexists. eexists.
  split; [by apply (group_init_opened _ _ _ _ _ _ c d v n)|].
  split; [cbn; apply lookup_insert_eq|].
  unfold stored_name. cbn. unfold strncpy.
  split; [|split].
  - rewrite length_app, length_take, length_replicate. lia.
  - intros Hshort. rewrite take_ge by lia.
    destruct (32 - length (c_str prog_name))%nat as [|k] eqn:Hk; [lia|].
    change (replicate (S k) NUL) with (NUL :: replicate k NUL).
    split.
    + apply strlen_terminated, nul_free_c_str.
    + apply c_str_terminated, nul_free_c_str.
  - intros Hlong.
    replace (32 - length (c_str prog_name))%nat with 0%nat by lia.
    cbn [replicate]. rewrite app_nil_r. split; [done|].
    unfold strlen.
    by rewrite (nul_free_take 32 _ (nul_free_c_str prog_name)).
Qed.

Lemma X7_stored_program_name_witness :
  ∃ w' b, group_init (oracle_up 48) 77 long_name 1 512 world_0
          = Done (o_malloc (oracle_up 48)) w'
          ∧ heap w' !! o_malloc (oracle_up 48) = Some b
          ∧ length (stored_name b) = 32%nat
          ∧ ((length (c_str long_name) < 32)%nat →
             strlen (stored_name b) = Some (length (c_str long_name))
             ∧ c_str (stored_name b) = c_str long_name)
          ∧ ((32 ≤ length (c_str long_name))%nat →
             stored_name b = take 32 (c_str long_name)
             ∧ strlen (stored_name b) = None).
Proof.
  apply (X7_stored_program_name
           (oracle_up 48) 77 long_name 1 512 world_0 cbs_a 3 0 48).
  - cbn. lia.
  - reflexivity.
  - reflexivity.
  - lia.
  - reflexivity.
  - lia.
  - reflexivity.
  - lia.
  - vm_compute. lia.
Defined.

(** [group_exit] on a valid session, with the world it leaves. *)
Lemma group_exit_valid w handle h :
  valid_handle w handle h →
  ∃ w', group_exit handle w = Done 0 w'
        ∧ heap w' !! handle = Some {| live := false; obj := clear_magic h |}
        ∧ (∀ q, q ≠ handle → heap w' !! q = heap w !! q)
        ∧ open_fds w' = open_fds w ∖ {[fd h]}
        ∧ trace w' = trace w ++ [Sys_close (fd h)]
        ∧ app_cbs w' = app_cbs w
        ∧ errno w' = (if decide (fd h ∈ open_fds w) then errno w else EBADF).
Proof.
  intros Hv. unfold group_exit. rewrite (with_handle_valid _ _ _ _ Hv).
  destruct Hv as (Hnz & Hblk & Hmagic).
  unfold bind, store_magic0, sys_close, free, ret. cbn.
  destruct (decide (fd h ∈ open_fds w)) as [Hin|Hout];
    (eexists; split; [reflexivity|]); cbn;
    (split; [by rewrite !lookup_alter_eq, Hblk|]);
    (split; [intros q Hq; by rewrite !lookup_alter_ne|]).
  - done.
  - split; [|done]. apply set_eq. intros x.
    rewrite elem_of_difference, elem_of_singleton.
    split; [|by intros [? _]]. intros Hx. split; [done|]. by intros ->.
Qed.

(** X8: on a valid session [group_exit] always returns 0, the result of
    [close] not being looked at.  The block of the session is freed, the
    descriptor of the session is no longer open, the one system call made
    is that [close], and every other block and every callback set is as
    before. *)
Theorem X8_exit_releases_the_session w handle h :
  valid_handle w handle h →
  ∃ w', group_exit handle w = Done 0 w'
        ∧ (live <$> heap w' !! handle) = Some false
        ∧ (∀ q, q ≠ handle → heap w' !! q = heap w !! q)
        ∧ open_fds w' = open_fds w ∖ {[fd h]}
        ∧ trace w' = trace w ++ [Sys_close (fd h)]
        ∧ app_cbs w' = app_cbs w.
Proof.
  intros Hv.
  destruct (group_exit_valid _ _ _ Hv)
    as (w' & Hrun & Hblk & Hframe & Hfds & Htr & Hcbs & _).
  exists w'. split; [done|]. split; [by rewrite Hblk|]. done.
Qed.

Lemma X8_exit_releases_the_session_witness :
  ∃ w', group_exit 4096 world_a = Done 0 w'
        ∧ (live <$> heap w' !! 4096) = Some false
        ∧ (∀ q, q ≠ 4096 → heap w' !! q = heap world_a !! q)
        ∧ open_fds w' = open_fds world_a ∖ {[fd handle_a]}
        ∧ trace w' = trace world_a ++ [Sys_close (fd handle_a)]
        ∧ app_cbs w' = app_cbs world_a.
Proof.
  apply (X8_exit_releases_the_session world_a 4096 handle_a).
  split; [lia | split; reflexivity].
Defined.

(** X9: a session opened on a fresh descriptor and then closed leaves the
    set of open descriptors as it was before [group_init] and the block
    freed; between them the two calls make four system calls, socket,
    connect, the write of the handshake and close. *)
Theorem X9_open_then_close_leaks_no_descriptor
    o private prog_name level cbs w c d v n :
  o_malloc o ≠ 0 →
  app_cbs w !! cbs = Some c →
  o_socket o = Sys_ok d → 0 ≤ d → d ∉ open_fds w →
  o_connect o = Sys_ok v → 0 ≤ v →
  o_write o = Sys_ok n → 0 ≤ n →
  (length (setup_line prog_name level) < MAXLINE)%nat →
  ∃ w1 w2, group_init o private prog_name level cbs w = Done (o_malloc o) w1
           ∧ group_exit (o_malloc o) w1 = Done 0 w2
           ∧ open_fds w2 = open_fds w
           ∧ trace w2
             = trace w ++ [Sys_socket d; Sys_connect d v;
                           Sys_write d (setup_line prog_name level) n;
                           Sys_close d]
           ∧ (live <$> heap w2 !! o_malloc o) = Some false.
Proof.
  intros Hp Hc Hs Hd Hfresh Hconn Hv Hw Hn Hlen.
  eexists.
  assert (Hvalid : valid_handle
            (emit (Sys_write d (setup_line prog_name level) n)
               (emit (Sys_connect d v)
                  (with_session (o_malloc o)
                     (session private prog_name level c d) d w)))
            (o_malloc o) (session private prog_name level c d)).
  { split; [done|]. split; [|done]. cbn. apply lookup_insert_eq. }
  destruct (group_exit_valid _ _ _ Hvalid)
    as (w2 & Hrun & Hblk & _ & Hfds & Htr & _ & _).
  exists w2.
  split; [by apply (group_init_opened _ _ _ _ _ _ c d v n)|].
  split; [done|]. split; [|split].
  - rewrite Hfds. cbn. apply difference_union_fresh, Hfresh.
  - rewrite Htr. cbn. by rewrite <- !app_assoc.
  - by rewrite Hblk.
Qed.

Lemma X9_open_then_close_leaks_no_descriptor_witness :
  ∃ w1 w2, group_init (oracle_up 14) 77 (lit "fenced") 1 512 world_0
           = Done (o_malloc (oracle_up 14)) w1
           ∧ group_exit (o_malloc (oracle_up 14)) w1 = Done 0 w2
           ∧ open_fds w2 = open_fds world_0
           ∧ trace w2
             = trace world_0
               ++ [Sys_socket 3; Sys_connect 3 0;
                   Sys_write 3 (setup_line (lit "fenced") 1) 14;
                   Sys_close 3]
           ∧ (live <$> heap w2 !! o_malloc (oracle_up 14)) = Some false.
Proof.
  apply (X9_open_then_close_leaks_no_descriptor
           (oracle_up 14) 77 (lit "fenced") 1 512 world_0 cbs_a 3 0 14).
  - cbn. lia.
  - reflexivity.
  - reflexivity.
  - lia.
  - cbn. apply not_elem_of_empty.
  - reflexivity.
  - lia.
  - reflexivity.
  - lia.
  - vm_compute. lia.
Defined.

(** ** Dispatch *)

(** [dispatch_action] adds at most one event, a handler call. *)
Lemma dispatch_action_frame alloc_ok handle h argv w w' :
  dispatch_action alloc_ok handle h argv w = Done tt w' →
  w' = w ∨ ∃ e, w' = emit e w ∧ is_call e = true.
Proof.
  unfold dispatch_action, bind, arg, fill_nodeids, call, ret, undefined.
  repeat case_match; intros Hrun; simplify_eq; eauto;
    right; eexists; (split; [reflexivity|done]).
Qed.

(** X10: in a call of [group_dispatch] on a valid session that returns,
    what the library itself does is, in this order, exactly one [read],
    on the descriptor of the session, and after it at most one handler
    call; the value returned is 0.  What a handler does in its own body
    is code of the application and is not covered. *)
Theorem X10_dispatch_reads_once_and_calls_at_most_once
    tk o w handle h rv w' :
  valid_handle w handle h →
  group_dispatch_with tk o handle w = Done rv w' →
  rv = 0
  ∧ ∃ r calls, trace w' = trace w ++ Sys_read (fd h) r :: calls
               ∧ (length calls ≤ 1)%nat
               ∧ Forall (λ e, is_call e = true) calls.
Proof.
  intros Hv. unfold group_dispatch_with.
  rewrite (with_handle_valid _ _ _ _ Hv).
  unfold bind at 1. unfold sys_read.
  destruct (o_read o) as [data|e]; cbn [snd];
    unfold bind at 1; unfold strlen_of;
    (destruct (strlen _); [|discriminate]);
    unfold ret at 1; unfold bind at 1;
    (destruct (dispatch_action _ _ _ _ _) as [|[] w''] eqn:Hact;
       [discriminate|]);
    unfold ret; intros Hrun; simplify_eq;
    apply dispatch_action_frame in Hact as [->|(ev & -> & Hev)]; cbn;
    (split; [done|]).
  - eexists _, []. split; [done|]. split; [cbn; lia | constructor].
  - eexists _, [ev]. split; [by rewrite <- app_assoc|].
    split; [cbn; lia | by repeat constructor].
  - eexists _, []. split; [done|]. split; [cbn; lia | constructor].
  - eexists _, [ev]. split; [by rewrite <- app_assoc|].
    split; [cbn; lia | by repeat constructor].
Qed.

Lemma X10_dispatch_reads_once_and_calls_at_most_once_witness :
  0 = 0
  ∧ ∃ r calls, trace world_3
               = trace world_2
                 ++ Sys_read (fd (session 77 (lit "fenced") 1 cbs_a 3)) r
                    :: calls
               ∧ (length calls ≤ 1)%nat
               ∧ Forall (λ e, is_call e = true) calls.
Proof.
  apply (X10_dispatch_reads_once_and_calls_at_most_once make_args
           {| o_read := Read_ok (lit "stop g1"); o_nodeids := true |}
           world_2 4096 (session 77 (lit "fenced") 1 cbs_a 3) 0 world_3).
  - split; [lia | split; reflexivity].
  - vm_compute. reflexivity.
Defined.

Ltac run_action :=
  unfold dispatch_action; cbn [arg lookup list_lookup];
  unfold bind at 1, ret at 1; decide_action;
  unfold bind, ret, call; cbn [arg lookup list_lookup].

Ltac handler_set fn :=
  destruct (Z.eqb_spec fn 0) as [?|_]; [done|].

(** X11: a line whose tokens are "stop", a group name and anything after
    it makes [group_dispatch] call the stop handler of the session, once,
    with the handle, the private pointer and that name, and return 0; the
    tokens after the name are not looked at. *)
Theorem X11_stop_line_calls_stop_handler tk o w handle h data name rest :
  valid_handle w handle h →
  o_read o = Read_ok data →
  (length data < MAXLINE)%nat →
  tk (c_str data) " "%char = lit "stop" :: name :: rest →
  stop (cbs h) ≠ 0 →
  group_dispatch_with tk o handle w
  = Done 0 (emit (Call_stop (stop (cbs h)) handle (private h) name)
              (emit (Sys_read (fd h) (Z.of_nat (length data))) w)).
Proof.
  intros Hv Hr Hlen Htok Hfn.
  rewrite (dispatch_read_ok _ _ _ _ _ _ Hv Hr Hlen), Htok.
  unfold bind at 1. run_action. by handler_set (stop (cbs h)).
Qed.

Lemma X11_stop_line_calls_stop_handler_witness :
  group_dispatch_with make_args
    {| o_read := Read_ok (lit "stop g1 extra"); o_nodeids := false |}
    4096 world_a
  = Done 0 (emit (Call_stop (stop (cbs handle_a)) 4096 (private handle_a)
                    (lit "g1"))
              (emit (Sys_read (fd handle_a)
                       (Z.of_nat (length (lit "stop g1 extra")))) world_a)).
Proof.
  apply (X11_stop_line_calls_stop_handler make_args
           {| o_read := Read_ok (lit "stop g1 extra"); o_nodeids := false |}
           world_a 4096 handle_a (lit "stop g1 extra") (lit "g1")
           [lit "extra"]).
  - split; [lia | split; reflexivity].
  - reflexivity.
  - vm_compute. lia.
  - reflexivity.
  - cbn. lia.
Defined.

(** X12: a line whose tokens are "terminate", a group name and anything
    after it makes [group_dispatch] call the terminate handler, once,
    with the handle, the private pointer and that name, and return 0. *)
Theorem X12_terminate_line_calls_terminate_handler
    tk o w handle h data name rest :
  valid_handle w handle h →
  o_read o = Read_ok data →
  (length data < MAXLINE)%nat →
  tk (c_str data) " "%char = lit "terminate" :: name :: rest →
  terminate (cbs h) ≠ 0 →
  group_dispatch_with tk o handle w
  = Done 0 (emit (Call_terminate (terminate (cbs h)) handle (private h) name)
              (emit (Sys_read (fd h) (Z.of_nat (length data))) w)).
Proof.
  intros Hv Hr Hlen Htok Hfn.
  rewrite (dispatch_read_ok _ _ _ _ _ _ Hv Hr Hlen), Htok.
  unfold bind at 1. run_action. by handler_set (terminate (cbs h)).
Qed.

Lemma X12_terminate_line_calls_terminate_handler_witness :
  group_dispatch_with make_args
    {| o_read := Read_ok (lit "terminate g1"); o_nodeids := false |}
    4096 world_a
  = Done 0 (emit (Call_terminate (terminate (cbs handle_a)) 4096
                    (private handle_a) (lit "g1"))
              (emit (Sys_read (fd handle_a)
                       (Z.of_nat (length (lit "terminate g1")))) world_a)).
Proof.
  apply (X12_terminate_line_calls_terminate_handler make_args
           {| o_read := Read_ok (lit "terminate g1"); o_nodeids := false |}
           world_a 4096 handle_a (lit "terminate g1") (lit "g1") []).
  - split; [lia | split; reflexivity].
  - reflexivity.
  - vm_compute. lia.
  - reflexivity.
  - cbn. lia.
Defined.

Lemma to_int32_id z : - 2 ^ 31 ≤ z < 2 ^ 31 → to_int32 z = z.
Proof.
  intros Hz. unfold to_int32. rewrite Z.mod_small; lia.
Qed.

Lemma atoi_decimal_value s : atoi s = to_int32 (decimal_value s).
Proof.
  unfold atoi, decimal_value. destruct (dropwhile_space s) as [|c r]; [done|].
  by repeat case_match.
Qed.

(** On the tokens where C defines it, [atoi] gives the number written. *)
Lemma atoi_fits s : fits_int s → atoi s = decimal_value s.
Proof. intros Hs. rewrite atoi_decimal_value. by apply to_int32_id. Qed.

(** X13: a line whose tokens are "finish", a group name, an event number
    that is a value of [int], and anything after it makes
    [group_dispatch] call the finish handler, once, with the handle, the
    private pointer, the name and the number written in the third token,
    and return 0. *)
Theorem X13_finish_line_calls_finish_handler
    tk o w handle h data name nr rest :
  valid_handle w handle h →
  o_read o = Read_ok data →
  (length data < MAXLINE)%nat →
  tk (c_str data) " "%char = lit "finish" :: name :: nr :: rest →
  fits_int nr →
  finish (cbs h) ≠ 0 →
  group_dispatch_with tk o handle w
  = Done 0 (emit (Call_finish (finish (cbs h)) handle (private h) name
                    (decimal_value nr))
              (emit (Sys_read (fd h) (Z.of_nat (length data))) w)).
Proof.
  intros Hv Hr Hlen Htok Hnr Hfn.
  rewrite (dispatch_read_ok _ _ _ _ _ _ Hv Hr Hlen), Htok.
  unfold bind at 1. run_action. rewrite (atoi_fits _ Hnr).
  by handler_set (finish (cbs h)).
Qed.

Lemma X13_finish_line_calls_finish_handler_witness :
  group_dispatch_with make_args
    {| o_read := Read_ok (lit "finish g1 7"); o_nodeids := false |}
    4096 world_a
  = Done 0 (emit (Call_finish (finish (cbs handle_a)) 4096
                    (private handle_a) (lit "g1") (decimal_value (lit "7")))
              (emit (Sys_read (fd handle_a)
                       (Z.of_nat (length (lit "finish g1 7")))) world_a)).
Proof.
  apply (X13_finish_line_calls_finish_handler make_args
           {| o_read := Read_ok (lit "finish g1 7"); o_nodeids := false |}
           world_a 4096 handle_a (lit "finish g1 7") (lit "g1") (lit "7") []).
  - split; [lia | split; reflexivity].
  - reflexivity.
  - vm_compute. lia.
  - reflexivity.
  - split; vm_compute; [discriminate | reflexivity].
  - cbn. lia.
Defined.

(** X14: a line whose tokens are "set_id", a group name, an id that is a
    value of [int], and anything after it makes [group_dispatch] call the
    set_id handler, once, with the handle, the private pointer, the name
    and the number written in the third token, and return 0. *)
Theorem X14_set_id_line_calls_set_id_handler
    tk o w handle h data name id rest :
  valid_handle w handle h →
  o_read o = Read_ok data →
  (length data < MAXLINE)%nat →
  tk (c_str data) " "%char = lit "set_id" :: name :: id :: rest →
  fits_int id →
  set_id (cbs h) ≠ 0 →
  group_dispatch_with tk o handle w
  = Done 0 (emit (Call_set_id (set_id (cbs h)) handle (private h) name
                    (decimal_value id))
              (emit (Sys_read (fd h) (Z.of_nat (length data))) w)).
Proof.
  intros Hv Hr Hlen Htok Hid Hfn.
  rewrite (dispatch_read_ok _ _ _ _ _ _ Hv Hr Hlen), Htok.
  unfold bind at 1. run_action. rewrite (atoi_fits _ Hid).
  by handler_set (set_id (cbs h)).
Qed.

Lemma X14_set_id_line_calls_set_id_handler_witness :
  group_dispatch_with make_args
    {| o_read := Read_ok (lit "set_id g1 42"); o_nodeids := false |}
    4096 world_a
  = Done 0 (emit (Call_set_id (set_id (cbs handle_a)) 4096
                    (private handle_a) (lit "g1") (decimal_value (lit "42")))
              (emit (Sys_read (fd handle_a)
                       (Z.of_nat (length (lit "set_id g1 42")))) world_a)).
Proof.
  apply (X14_set_id_line_calls_set_id_handler make_args
           {| o_read := Read_ok (lit "set_id g1 42"); o_nodeids := false |}
           world_a 4096 handle_a (lit "set_id g1 42") (lit "g1") (lit "42") []).
  - split; [lia | split; reflexivity].
  - reflexivity.
  - vm_compute. lia.
  - reflexivity.
  - split; vm_compute; [discriminate | reflexivity].
  - cbn. lia.
Defined.

(** A "start" line with its four leading tokens and its node ids. *)
Lemma group_dispatch_start_line
    tk o w handle h data name ty nr ids :
  valid_handle w handle h →
  o_read o = Read_ok data →
  (length data < MAXLINE)%nat →
  tk (c_str data) " "%char = lit "start" :: name :: ty :: nr :: ids →
  o_nodeids o = true ∨ ids = [] →
  start (cbs h) ≠ 0 →
  group_dispatch_with tk o handle w
  = Done 0 (emit (Call_start (start (cbs h)) handle (private h) name
                    (atoi ty) (atoi nr) (Z.of_nat (length ids))
                    (atoi <$> ids))
              (emit (Sys_read (fd h) (Z.of_nat (length data))) w)).
Proof.
  intros Hv Hr Hlen Htok Halloc Hfn.
  rewrite (dispatch_read_ok _ _ _ _ _ _ Hv Hr Hlen), Htok.
  unfold bind at 1. run_action.
  replace (start_count (Z.of_nat (length (lit "start" :: name :: ty :: nr :: ids))))
    with (Z.of_nat (length ids)) by (unfold start_count; cbn [length]; lia).
  unfold fill_nodeids. cbn [drop].
  destruct ids as [|i ids].
  - cbn. by handler_set (start (cbs h)).
  - destruct Halloc as [Hok|?]; [|done]. rewrite Hok. cbn -[Z.of_nat].
    by handler_set (start (cbs h)).
Qed.

(** X15: a line whose tokens are "start", a group name, an event type, an
    event number and then any number of node ids, all of them values of
    [int], makes [group_dispatch] call the start handler, once, with the
    name, the type and the number written in the line, a count equal to
    the number of node-id tokens and the node ids in the order of the
    line, and return 0; this needs the block for the node ids only when
    there is one. *)
Theorem X15_start_line_passes_every_node_id
    tk o w handle h data name ty nr ids :
  valid_handle w handle h →
  o_read o = Read_ok data →
  (length data < MAXLINE)%nat →
  tk (c_str data) " "%char = lit "start" :: name :: ty :: nr :: ids →
  fits_int ty → fits_int nr → Forall fits_int ids →
  o_nodeids o = true ∨ ids = [] →
  start (cbs h) ≠ 0 →
  group_dispatch_with tk o handle w
  = Done 0 (emit (Call_start (start (cbs h)) handle (private h) name
                    (decimal_value ty) (decimal_value nr)
                    (Z.of_nat (length ids)) (decimal_value <$> ids))
              (emit (Sys_read (fd h) (Z.of_nat (length data))) w)).
Proof.
  intros Hv Hr Hlen Htok Hty Hnr Hids Halloc Hfn.
  rewrite (group_dispatch_start_line _ _ _ _ _ data name ty nr ids)
    by done.
  rewrite (atoi_fits _ Hty), (atoi_fits _ Hnr).
  replace (atoi <$> ids) with (decimal_value <$> ids); [done|].
  clear Htok Halloc. induction Hids as [|s ids Hs _ IH]; [done|].
  cbn. by rewrite (atoi_fits _ Hs), IH.
Qed.

Lemma X15_start_line_passes_every_node_id_witness :
  group_dispatch_with make_args
    {| o_read := Read_ok (lit "start g1 1 5 10 11"); o_nodeids := true |}
    4096 world_a
  = Done 0 (emit (Call_start (start (cbs handle_a)) 4096 (private handle_a)
                    (lit "g1") (decimal_value (lit "1"))
                    (decimal_value (lit "5"))
                    (Z.of_nat (length [lit "10"; lit "11"]))
                    (decimal_value <$> [lit "10"; lit "11"]))
              (emit (Sys_read (fd handle_a)
                       (Z.of_nat (length (lit "start g1 1 5 10 11"))))
                 world_a)).
Proof.
  apply (X15_start_line_passes_every_node_id make_args
           {| o_read := Read_ok (lit "start g1 1 5 10 11"); o_nodeids := true |}
           world_a 4096 handle_a (lit "start g1 1 5 10 11") (lit "g1")
           (lit "1") (lit "5") [lit "10"; lit "11"]).
  - split; [lia | split; reflexivity].
  - reflexivity.
  - vm_compute. lia.
  - reflexivity.
  - split; vm_compute; [discriminate | reflexivity].
  - split; vm_compute; [discriminate | reflexivity].
  - repeat constructor; vm_compute; (discriminate || reflexivity).
  - left. reflexivity.
  - cbn. lia.
Defined.

(** X16: the result of the [malloc] for the node ids is not tested.  On a
    "start" line that carries at least one node id, when that [malloc]
    gives no block, [group_dispatch] stores through the null pointer: no
    handler is called and nothing is returned. *)
Theorem X16_start_line_with_failed_malloc
    tk o w handle h data rest id ids :
  valid_handle w handle h →
  o_read o = Read_ok data →
  (length data < MAXLINE)%nat →
  tk (c_str data) " "%char = lit "start" :: rest →
  drop 3 rest = id :: ids →
  o_nodeids o = false →
  group_dispatch_with tk o handle w = Undef Null_deref.
Proof.
  intros Hv Hr Hlen Htok Hids Halloc.
  rewrite (dispatch_read_ok _ _ _ _ _ _ Hv Hr Hlen), Htok.
  unfold bind at 1. unfold dispatch_action. cbn [arg lookup list_lookup].
  unfold bind at 1, ret at 1. decide_action.
  unfold bind at 1. unfold fill_nodeids.
  change (drop 4 (lit "start" :: rest)) with (drop 3 rest).
  by rewrite Hids, Halloc.
Qed.

Lemma X16_start_line_with_failed_malloc_witness :
  group_dispatch_with make_args
    {| o_read := Read_ok (lit "start g1 1 5 10"); o_nodeids := false |}
    4096 world_a
  = Undef Null_deref.
Proof.
  apply (X16_start_line_with_failed_malloc make_args
           {| o_read := Read_ok (lit "start g1 1 5 10"); o_nodeids := false |}
           world_a 4096 handle_a (lit "start g1 1 5 10")
           [lit "g1"; lit "1"; lit "5"; lit "10"] (lit "10") []).
  - split; [lia | split; reflexivity].
  - reflexivity.
  - vm_compute. lia.
  - reflexivity.
  - reflexivity.
  - reflexivity.
Defined.

Lemma converting_cases act :
  act ∈ converting →
  act = lit "start" ∨ act = lit "finish" ∨ act = lit "set_id".
Proof.
  unfold converting. intros H.
  repeat (apply elem_of_cons in H as [H|H]; [eauto|]).
  by apply elem_of_nil in H.
Qed.

(** X17: no branch of [group_dispatch] tests [argc] before it uses
    [argv].  For start, finish and set_id, a line with fewer tokens than
    the branch uses (four for start, three for finish and set_id) has
    [atoi] applied to an unset slot of [argv], which reads the string
    behind it: C gives that read no meaning, whatever handlers are set,
    and the model gives the call no result. *)
Theorem X17_recognized_action_with_missing_arguments
    tk o w handle h data act rest :
  valid_handle w handle h →
  o_read o = Read_ok data →
  (length data < MAXLINE)%nat →
  tk (c_str data) " "%char = act :: rest →
  act ∈ converting →
  (length (act :: rest) < needed_args act)%nat →
  group_dispatch_with tk o handle w = Undef Argv_uninit.
Proof.
  intros Hv Hr Hlen Htok Hact Hargc.
  rewrite (dispatch_read_ok _ _ _ _ _ _ Hv Hr Hlen), Htok.
  unfold bind at 1.
  apply converting_cases in Hact.
  destruct Hact as [-> | [-> | ->]];
    match type of Hargc with
    | context [needed_args ?a] =>
        let k := eval vm_compute in (needed_args a) in
        change (needed_args a) with k in Hargc
    end;
    destruct rest as [|a1 [|a2 [|a3 rest]]]; cbn in Hargc; try lia;
    unfold dispatch_action; cbn [arg lookup list_lookup];
    unfold bind at 1, ret at 1; decide_action; reflexivity.
Qed.

Lemma X17_recognized_action_with_missing_arguments_witness :
  group_dispatch_with make_args
    {| o_read := Read_ok (lit "finish g1"); o_nodeids := true |}
    4096 world_a
  = Undef Argv_uninit.
Proof.
  apply (X17_recognized_action_with_missing_arguments make_args
           {| o_read := Read_ok (lit "finish g1"); o_nodeids := true |}
           world_a 4096 handle_a (lit "finish g1") (lit "finish") [lit "g1"]).
  - split; [lia | split; reflexivity].
  - reflexivity.
  - vm_compute. lia.
  - reflexivity.
  - unfold converting. rewrite !elem_of_cons. right. by left.
  - vm_compute. lia.
Defined.

(** A "stop" or "terminate" line without a name: the unset [argv[1]] is
    handed on as it is and the handler is called. *)
Lemma group_dispatch_without_name tk o w handle h data :
  valid_handle w handle h →
  o_read o = Read_ok data →
  (length data < MAXLINE)%nat →
  (tk (c_str data) " "%char = [lit "stop"] → stop (cbs h) ≠ 0 →
   group_dispatch_with tk o handle w
   = Done 0 (emit (Call_stop_unset (stop (cbs h)) handle (private h))
               (emit (Sys_read (fd h) (Z.of_nat (length data))) w)))
  ∧ (tk (c_str data) " "%char = [lit "terminate"] → terminate (cbs h) ≠ 0 →
     group_dispatch_with tk o handle w
     = Done 0 (emit (Call_terminate_unset (terminate (cbs h)) handle
                       (private h))
                 (emit (Sys_read (fd h) (Z.of_nat (length data))) w))).
Proof.
  intros Hv Hr Hlen.
  split; intros Htok Hfn;
    rewrite (dispatch_read_ok _ _ _ _ _ _ Hv Hr Hlen), Htok;
    unfold bind at 1; run_action.
  - by handler_set (stop (cbs h)).
  - by handler_set (terminate (cbs h)).
Qed.

(** X18: the members of the callback set are called without a test for
    null.  A line that names one of the five actions and carries the
    tokens its branch reads, on a session whose handler for that action
    is a null pointer, ends in a call through the null pointer. *)
Theorem X18_recognized_action_with_null_handler
    tk o w handle h data act rest :
  valid_handle w handle h →
  o_read o = Read_ok data →
  (length data < MAXLINE)%nat →
  tk (c_str data) " "%char = act :: rest →
  handler_for (cbs h) act = Some 0 →
  (needed_args act ≤ length (act :: rest))%nat →
  o_nodeids o = true →
  group_dispatch_with tk o handle w = Undef Null_handler.
Proof.
  intros Hv Hr Hlen Htok Hfn Hargc Halloc.
  rewrite (dispatch_read_ok _ _ _ _ _ _ Hv Hr Hlen), Htok, Halloc.
  unfold bind at 1. revert Hfn Hargc.
  unfold handler_for, needed_args, dispatch_action.
  cbn [arg lookup list_lookup]. unfold bind at 1, ret at 1.
  repeat case_decide; intros Hfn Hargc; try discriminate Hfn;
    injection Hfn as Hfn;
    destruct rest as [|a1 [|a2 [|a3 rest]]]; cbn in Hargc; try lia;
    unfold bind, ret, call, fill_nodeids; cbn [arg lookup list_lookup drop];
    rewrite Hfn; try reflexivity.
  cbn [drop]. by destruct rest.
Qed.

Lemma X18_recognized_action_with_null_handler_witness :
  group_dispatch_with make_args
    {| o_read := Read_ok (lit "stop g1"); o_nodeids := true |}
    4096 (set_heap {[ 4096 := {| live := true;
                                 obj := session 77 (lit "fenced") 1
                                          {| stop := 0; start := 12;
                                             finish := 13; terminate := 14;
                                             set_id := 15 |} 3 |} ]}
            world_a)
  = Undef Null_handler.
Proof.
  apply (X18_recognized_action_with_null_handler make_args
           {| o_read := Read_ok (lit "stop g1"); o_nodeids := true |}
           _ 4096
           (session 77 (lit "fenced") 1
              {| stop := 0; start := 12; finish := 13; terminate := 14;
                 set_id := 15 |} 3)
           (lit "stop g1") (lit "stop") [lit "g1"]).
  - split; [lia | split; reflexivity].
  - reflexivity.
  - vm_compute. lia.
  - reflexivity.
  - reflexivity.
  - vm_compute. lia.
  - reflexivity.
Defined.



(** ** Numbers on the wire *)

Lemma atoi_digits_acc (d : Decimal.uint) (p : positive) :
  atoi_digits (Z.pos p) (lit (NilEmpty.string_of_uint d))
  = Z.pos (Pos.of_uint_acc d p).
Proof.
  revert p. induction d as [|d IH|d IH|d IH|d IH|d IH|d IH|d IH|d IH|d IH|d IH];
    intros p; [reflexivity|..];
    cbn [NilEmpty.string_of_uint lit list_ascii_of_string atoi_digits
         Pos.of_uint_acc];
    match goal with
    | |- context [digit_of ?c] =>
        let v := eval vm_compute in (digit_of c) in
        change (digit_of c) with v
    end; cbn iota;
    match goal with
    | |- atoi_digits ?a _ = Z.pos (Pos.of_uint_acc _ ?q) =>
        replace a with (Z.pos q) by lia
    end; apply IH.
Qed.

Lemma atoi_digits_uint (d : Decimal.uint) :
  atoi_digits 0 (lit (NilEmpty.string_of_uint d)) = Z.of_N (Pos.of_uint d).
Proof.
  induction d as [|d IH|d IH|d IH|d IH|d IH|d IH|d IH|d IH|d IH|d IH];
    [reflexivity | exact IH |..];
    cbn [NilEmpty.string_of_uint lit list_ascii_of_string atoi_digits
         Pos.of_uint];
    match goal with
    | |- context [digit_of ?c] =>
        let v := eval vm_compute in (digit_of c) in
        change (digit_of c) with v
    end; cbn iota;
    match goal with
    | |- atoi_digits ?a _ = _ =>
        let v := eval vm_compute in a in change a with v
    end; rewrite atoi_digits_acc; reflexivity.
Qed.

Lemma atoi_digits_uint_nilzero (d : Decimal.uint) :
  atoi_digits 0 (lit (NilZero.string_of_uint d)) = Z.of_uint d.
Proof.
  unfold Z.of_uint. rewrite <- atoi_digits_uint. by destruct d.
Qed.

Lemma atoi_string_of_int (d : Decimal.int) :
  atoi (lit (NilZero.string_of_int d)) = to_int32 (Z.of_int d).
Proof.
  destruct d as [u|u]; cbn [NilZero.string_of_int Z.of_int];
    rewrite <- atoi_digits_uint_nilzero.
  - destruct u; reflexivity.
  - reflexivity.
Qed.

(** What [%d] prints, [atoi] reads back. *)
Lemma atoi_fmt_d z : - 2 ^ 31 ≤ z < 2 ^ 31 → atoi (fmt_d z) = z.
Proof.
  intros Hz. unfold fmt_d.
  by rewrite atoi_string_of_int, DecimalZ.of_to, to_int32_id.
Qed.

(** X20: numbers written in decimal by [%d] come through a "start" line
    unchanged.  When the event type, the event number and the node ids of
    the line are the decimal forms of values of type [int], the start
    handler receives exactly those values, the node ids in the order of
    the line, and their number as the count. *)
Theorem X20_start_line_numbers_round_trip
    tk o w handle h data name ty nr ids :
  valid_handle w handle h →
  o_read o = Read_ok data →
  (length data < MAXLINE)%nat →
  tk (c_str data) " "%char
  = lit "start" :: name :: fmt_d ty :: fmt_d nr :: (fmt_d <$> ids) →
  is_int ty → is_int nr → Forall is_int ids →
  o_nodeids o = true ∨ ids = [] →
  start (cbs h) ≠ 0 →
  group_dispatch_with tk o handle w
  = Done 0 (emit (Call_start (start (cbs h)) handle (private h) name
                    ty nr (Z.of_nat (length ids)) ids)
              (emit (Sys_read (fd h) (Z.of_nat (length data))) w)).
Proof.
  intros Hv Hr Hlen Htok Hty Hnr Hids Halloc Hfn.
  rewrite (group_dispatch_start_line _ _ _ _ _ data name (fmt_d ty) (fmt_d nr)
             (fmt_d <$> ids) Hv Hr Hlen Htok).
  - rewrite length_fmap, !atoi_fmt_d by done.
    replace (atoi <$> (fmt_d <$> ids)) with ids; [done|].
    clear Htok Halloc. induction Hids as [|z ids Hz _ IH]; [done|].
    cbn. by rewrite atoi_fmt_d, <- IH.
  - destruct Halloc as [?| ->]; [by left | by right].
  - done.
Qed.

Lemma X20_start_line_numbers_round_trip_witness :
  group_dispatch_with make_args
    {| o_read := Read_ok (lit "start g1 1 5 10 -11"); o_nodeids := true |}
    4096 world_a
  = Done 0 (emit (Call_start (start (cbs handle_a)) 4096 (private handle_a)
                    (lit "g1") 1 5 (Z.of_nat (length [10; -11])) [10; -11])
              (emit (Sys_read (fd handle_a)
                       (Z.of_nat (length (lit "start g1 1 5 10 -11"))))
                 world_a)).
Proof.
  apply (X20_start_line_numbers_round_trip make_args
           {| o_read := Read_ok (lit "start g1 1 5 10 -11"); o_nodeids := true |}
           world_a 4096 handle_a (lit "start g1 1 5 10 -11") (lit "g1")
           1 5 [10; -11]).
  - split; [lia | split; reflexivity].
  - reflexivity.
  - vm_compute. lia.
  - reflexivity.
  - unfold is_int. lia.
  - unfold is_int. lia.
  - repeat constructor; unfold is_int; lia.
  - left. reflexivity.
  - cbn. lia.
Defined.

(** ** Closing twice, and failing early *)



(** X22: [group_init] stops at the first call that fails.  When [socket]
    fails, no [connect] and no [write] is made, and the cleanup calls
    [close] on the -1 that [socket] returned; when [connect] fails, no
    [write] is made and the one descriptor is closed.  No handshake is
    written unless the connection was made. *)
Theorem X22_init_failure_makes_no_later_call
    o private prog_name level cbs w c e :
  o_malloc o ≠ 0 →
  app_cbs w !! cbs = Some c →
  (∀ d, d ∈ open_fds w → 0 ≤ d) →
  o_socket o = Sys_fail e
  ∨ (∃ d, o_socket o = Sys_ok d ∧ 0 ≤ d ∧ o_connect o = Sys_fail e) →
  ∃ w', group_init o private prog_name level cbs w = Done 0 w'
        ∧ trace w'
          = trace w
            ++ match o_socket o with
               | Sys_fail _ => [Sys_socket (-1); Sys_close (-1)]
               | Sys_ok d => [Sys_socket d; Sys_connect d (-1); Sys_close d]
               end.
Proof.
  intros Hp Hc Hfds Hfail. unfold group_init.
  unfold bind at 1. rewrite (malloc_ok _ _ Hp).
  destruct (Z.eqb_spec (o_malloc o) 0) as [?|_]; [done|].
  unfold bind at 1. unfold load_cbs. rewrite Hc.
  unfold bind at 1. unfold sys_socket.
  destruct Hfail as [Hs|(d & Hs & Hd & Hconn)]; rewrite Hs.
  - unfold bind at 1. unfold store.
    change (-1 <? 0) with true. cbn iota.
    unfold init_fail, bind, load, sys_close, free. cbn.
    rewrite lookup_insert_eq. cbn.
    assert (Hno : -1 ∉ open_fds w) by (intros Hin; apply Hfds in Hin; lia).
    destruct (decide (-1 ∈ open_fds w)) as [?|_]; [done|].
    eexists. split; [reflexivity|]. cbn. by rewrite <- !app_assoc.
  - unfold bind at 1. unfold store.
    destruct (Z.ltb_spec d 0) as [?|_]; [lia|].
    unfold bind at 1. unfold sys_connect. rewrite Hconn.
    change (-1 <? 0) with true. cbn iota.
    unfold init_fail, bind, load, sys_close, free. cbn.
    rewrite lookup_insert_eq. cbn.
    destruct (decide (d ∈ {[d]} ∪ open_fds w)) as [_|Hn];
      [|exfalso; apply Hn, elem_of_union_l, elem_of_singleton; reflexivity].
    eexists. split; [reflexivity|]. cbn. by rewrite <- !app_assoc.
Qed.

Lemma X22_init_failure_makes_no_later_call_witness :
  ∃ w', group_init
          {| o_malloc := 4096; o_socket := Sys_fail 24;
             o_connect := Sys_ok 0; o_write := Sys_ok 14 |}
          77 (lit "fenced") 1 512 world_0 = Done 0 w'
        ∧ trace w'
          = trace world_0
            ++ match Sys_fail 24 with
               | Sys_fail _ => [Sys_socket (-1); Sys_close (-1)]
               | Sys_ok d => [Sys_socket d; Sys_connect d (-1); Sys_close d]
               end.
Proof.
  apply (X22_init_failure_makes_no_later_call
           {| o_malloc := 4096; o_socket := Sys_fail 24;
              o_connect := Sys_ok 0; o_write := Sys_ok 14 |}
           77 (lit "fenced") 1 512 world_0 cbs_a 24).
  - cbn. lia.
  - reflexivity.
  - intros d Hd. cbn in Hd. by apply not_elem_of_empty in Hd.
  - left. reflexivity.
Defined.
